(** * A shallow embedding of the Nitter scraper of [main.py]

    The development follows the source top-down: Python values and
    exceptions, the part of the Selenium interface the scraper consumes,
    a state-and-exception monad for the effects of [scrape_tweets], the
    scraper itself, and then the properties of the pipeline. *)

From Stdlib Require Import List String Ascii Bool NArith ZArith QArith Lia.
From Stdlib Require Import DecimalString.
Import ListNotations.

Local Close Scope Q_scope.
Local Open Scope list_scope.

(** ** Python values *)

Module Py.

(** A Python [str] is a sequence of Unicode code points. *)
Definition codepoint := N.
Definition str := list codepoint.

(** A string literal of the program text. *)
Definition lit (s : string) : str :=
  map N_of_ascii (list_ascii_of_string s).

(** [str.isascii()]: every code point is below U+0080 (true on [""]). *)
Definition isascii (s : str) : bool :=
  forallb (fun c => (c <? 128)%N) s.

(** The code points [str.strip()] removes when called without argument. *)
Definition isspace (c : codepoint) : bool :=
  ((9 <=? c) && (c <=? 13) || (28 <=? c) && (c <=? 32)
   || (c =? 133) || (c =? 160) || (c =? 5760)
   || (8192 <=? c) && (c <=? 8202)
   || (c =? 8232) || (c =? 8233) || (c =? 8239) || (c =? 8287)
   || (c =? 12288))%N.

Fixpoint lstrip (s : str) : str :=
  match s with
  | c :: s' => if isspace c then lstrip s' else s
  | [] => []
  end.

Definition rstrip (s : str) : str := rev (lstrip (rev s)).

Definition strip (s : str) : str := rstrip (lstrip s).

(** [str(n)] for a non-negative [int]. *)
Definition str_of_nat (n : nat) : str :=
  lit (NilEmpty.string_of_uint (Nat.to_uint n)).

Definition str_of_int (z : Z) : str :=
  match z with
  | Zneg p => lit "-" ++ str_of_nat (Pos.to_nat p)
  | _ => str_of_nat (Z.to_nat z)
  end.

(** The values stored in a scraped record. *)
Inductive val :=
| None_
| Str (s : str)
| Float (q : Q).

Definition of_option (o : option str) : val :=
  match o with
  | Some s => Str s
  | None => None_
  end.

(** A [dict] literal: keys in insertion order. *)
Definition dict := list (string * val).

Fixpoint get (d : dict) (k : string) : option val :=
  match d with
  | (k', v) :: d' => if String.eqb k k' then Some v else get d' k
  | [] => None
  end.

Definition keys (d : dict) : list string := map fst d.

(** The exception classes the scraper can meet, with the part of the
    class hierarchy its [except] clauses test. *)
Inductive exn_class :=
| Exception
| IndexError
| RuntimeError
| WebDriverException
| NoSuchElementException
| TimeoutException.

Record exn := mkExn {
  exn_class_of : exn_class;
  exn_str : str;            (* str(e) *)
  exn_traceback : str       (* what traceback.format_exc() renders *)
}.

Definition subclass (c d : exn_class) : bool :=
  match d, c with
  | Exception, _ => true
  | WebDriverException,
    (WebDriverException | NoSuchElementException | TimeoutException) => true
  | IndexError, IndexError => true
  | RuntimeError, RuntimeError => true
  | NoSuchElementException, NoSuchElementException => true
  | TimeoutException, TimeoutException => true
  | _, _ => false
  end.

Definition isinstance (e : exn) (c : exn_class) : bool :=
  subclass (exn_class_of e) c.

(** A call either raises or returns. *)
Definition result (A : Type) : Type := (exn + A)%type.

Definition and_then {A B} (r : result A) (k : A -> result B) : result B :=
  match r with
  | inr a => k a
  | inl e => inl e
  end.

(** [try: r except c: h] on a call without other effects. *)
Definition except {A} (r : result A) (c : exn_class) (h : result A)
  : result A :=
  match r with
  | inr a => inr a
  | inl e => if isinstance e c then h else inl e
  end.

End Py.

Declare Scope result_scope.
Delimit Scope result_scope with R.
Notation "x <- c1 ;; c2" := (Py.and_then c1 (fun x => c2))
  (at level 61, c1 at next level, right associativity) : result_scope.

Import Py.

Arguments lit : simpl never.

(** ** The Selenium interface, as the scraper uses it

    Every call into the browser may raise, so each is a [result].  An
    element found inside a tweet offers its text and its attributes; a
    tweet element offers the two lookups by class name. *)

Module Selenium.

Record sub_element := {
  text : result str;
  get_attribute : string -> result (option str)
}.

Record web_element := {
  find_element : string -> result sub_element;
  find_elements : string -> result (list sub_element)
}.

(** A document the driver can be on.  Clicking the "show-more" control
    either raises or navigates to the next document. *)
#[warnings="-register-all"] Inductive page := mkPage {
  wait_timeline : option exn;
  timeline_items : result (list web_element);
  show_more : result (result page)
}.

Definition no_such_element (cls : string) : exn :=
  mkExn NoSuchElementException
        (lit "Unable to locate element: ." ++ lit cls) [].

(** A concrete DOM fragment, for building test pages: the descendants
    of a tweet in document order, each with its class, text and
    attributes. *)
Record dom_node := {
  node_class : string;
  node_text : str;
  node_attrs : list (string * str)
}.

Fixpoint attr_of (l : list (string * str)) (name : string) : option str :=
  match l with
  | (k, v) :: l' => if String.eqb name k then Some v else attr_of l' name
  | [] => None
  end.

Definition render_node (n : dom_node) : sub_element :=
  {| text := inr (node_text n);
     get_attribute := fun name => inr (attr_of (node_attrs n) name) |}.

Definition by_class (cls : string) (ns : list dom_node) : list dom_node :=
  filter (fun n => String.eqb cls (node_class n)) ns.

Definition render (ns : list dom_node) : web_element :=
  {| find_element := fun cls =>
       match by_class cls ns with
       | n :: _ => inr (render_node n)
       | [] => inl (no_such_element cls)
       end;
     find_elements := fun cls => inr (map render_node (by_class cls ns)) |}.

End Selenium.

Import Selenium.

(** ** Effects: the session, the accumulator and what the outside sees *)

Inductive level := DEBUG | INFO | WARNING | ERROR.

Definition level_no (l : level) : nat :=
  match l with DEBUG => 10 | INFO => 20 | WARNING => 30 | ERROR => 40 end.

(** [logging.basicConfig(level=logging.INFO)] *)
Definition logging_level : level := INFO.

(** Calls that leave the process, in the order they are made. *)
Inductive event :=
| Log (lvl : level) (msg : str)
| Get (url : str)
| WaitTimeline
| FindTimelineItems
| FindShowMore
| Click
| Sleep (seconds : nat)
| Translate (text : str)
| Submit (text : str)
| Quit
| Shutdown.

(** The mutable part of a session, the list [tweet_data] of the running
    request, and the trace of calls. *)
Record state := mkState {
  current_page : page;
  driver_quit : bool;
  executor_shutdown : bool;
  tweet_data : list dict;
  trace : list event
}.

(** The immutable part of [self]: the three backends. *)
Record TwitterSentimentScraper := {
  serve : str -> result page;
  translator : str -> result str;
  sentiment_pipe : str -> result (list (str * Q))
}.

Definition M (A : Type) : Type := state -> result A * state.

Definition ret {A} (a : A) : M A := fun s => (inr a, s).

Definition raise {A} (e : exn) : M A := fun s => (inl e, s).

Definition bind {A B} (m : M A) (k : A -> M B) : M B :=
  fun s =>
    match m s with
    | (inr a, s') => k a s'
    | (inl e, s') => (inl e, s')
    end.

Definition try_except {A} (body : M A) (handler : exn -> M A) : M A :=
  fun s =>
    match body s with
    | (inr a, s') => (inr a, s')
    | (inl e, s') => handler e s'
    end.

Definition lift {A} (r : result A) : M A := fun s => (r, s).

Declare Scope scraper_scope.
Delimit Scope scraper_scope with M.
Notation "x <- c1 ;; c2" := (bind c1 (fun x => c2))
  (at level 61, c1 at next level, right associativity) : scraper_scope.
Notation "c1 ;; c2" := (bind c1 (fun _ => c2))
  (at level 61, right associativity) : scraper_scope.
Local Open Scope scraper_scope.

Definition set_trace (s : state) (t : list event) : state :=
  mkState (current_page s) (driver_quit s) (executor_shutdown s)
          (tweet_data s) t.

Definition set_tweet_data (s : state) (l : list dict) : state :=
  mkState (current_page s) (driver_quit s) (executor_shutdown s)
          l (trace s).

Definition set_page (s : state) (p : page) : state :=
  mkState p (driver_quit s) (executor_shutdown s) (tweet_data s) (trace s).

Definition tell (ev : event) : M unit :=
  fun s => (inr tt, set_trace s (trace s ++ [ev])).

Definition logger (lvl : level) (msg : str) : M unit :=
  if Nat.leb (level_no logging_level) (level_no lvl)
  then tell (Log lvl msg) else ret tt.

(** [tweet_data.append(d)] *)
Definition append (d : dict) : M unit :=
  fun s => (inr tt, set_tweet_data s (tweet_data s ++ [d])).

(** The browser moves to another document. *)
Definition navigate (p : page) : M unit :=
  fun s => (inr tt, set_page s p).

Definition gets {A} (f : state -> A) : M A := fun s => (inr (f s), s).

Fixpoint for_each {A} (body : A -> M unit) (l : list A) : M unit :=
  match l with
  | [] => ret tt
  | a :: l' => body a ;; for_each body l'
  end.

(** ** The scraper *)

(** What lines 98-112 read from one "timeline-item". *)
Record raw_post := {
  tweet_link : option str;
  username : str;
  full_name : str;
  tweet_date : str;
  tweet_content : str;
  comments : str;
  retweets : str;
  quotes : str;
  likes : str;
  image_url : option str
}.

(** [tweet.find_element(By.CLASS_NAME, cls).text.strip()] *)
Definition stripped_text (tweet : web_element) (cls : string) : result str :=
  (el <- find_element tweet cls ;;
   t <- text el ;;
   inr (strip t))%R.

(** [tweet.find_element(By.CLASS_NAME, cls).get_attribute(name)] *)
Definition attribute (tweet : web_element) (cls name : string)
  : result (option str) :=
  (el <- find_element tweet cls ;;
   get_attribute el name)%R.

(** [stats[i].text.strip() if i < len(stats) else "0"] *)
Definition stat_at (stats : list sub_element) (i : nat) : result str :=
  match nth_error stats i with
  | Some el => (t <- text el ;; inr (strip t))%R
  | None => inr (lit "0")
  end.

(** The generator over [range(4)], unpacked into four names. *)
Definition unpack_stats (stats : list sub_element)
  : result (str * str * str * str) :=
  (c <- stat_at stats 0 ;;
   r <- stat_at stats 1 ;;
   q <- stat_at stats 2 ;;
   l <- stat_at stats 3 ;;
   inr (c, r, q, l))%R.

(** Lines 109-112. *)
Definition avatar (tweet : web_element) : result (option str) :=
  except (attribute tweet "avatar.round" "src")
         NoSuchElementException (inr None).

(** Lines 98-112. *)
Definition read_tweet (tweet : web_element) : result raw_post :=
  (link <- attribute tweet "tweet-link" "href" ;;
   user <- stripped_text tweet "username" ;;
   name <- stripped_text tweet "fullname" ;;
   date <- stripped_text tweet "tweet-date" ;;
   content <- stripped_text tweet "tweet-content" ;;
   stats <- find_elements tweet "tweet-stat" ;;
   counts <- unpack_stats stats ;;
   let '(c, r, q, l) := counts in
   image <- avatar tweet ;;
   inr {| tweet_link := link; username := user; full_name := name;
          tweet_date := date; tweet_content := content;
          comments := c; retweets := r; quotes := q; likes := l;
          image_url := image |})%R.

(** The [dict] of lines 128-142. *)
Definition record (raw : raw_post) (trans_content sentiment : str)
           (sentiment_score : Q) : dict :=
  [ ("tweet_url", of_option (tweet_link raw));
    ("username", Str (username raw));
    ("full_name", Str (full_name raw));
    ("tweet_date", Str (tweet_date raw));
    ("tweet_content", Str (tweet_content raw));
    ("trans_content", Str trans_content);
    ("sentiment", Str sentiment);
    ("sentiment_score", Float sentiment_score);
    ("comments", Str (comments raw));
    ("retweets", Str (retweets raw));
    ("quotes", Str (quotes raw));
    ("likes", Str (likes raw));
    ("image_url", of_option (image_url raw)) ]%string.

Section Scraper.

Variable self : TwitterSentimentScraper.

(** [self.sentiment_pipe(text)[0]] *)
Definition analyze_sentiment_async (text : str) : result (str * Q) :=
  match sentiment_pipe self text with
  | inl e => inl e
  | inr (r :: _) => inr r
  | inr [] => inl (mkExn IndexError (lit "list index out of range") [])
  end.

(** [self.executor.submit(f, text)] followed by [future.result()], which
    hands back the value or re-raises what the worker raised. *)
Definition submit_and_wait (text : str) : M (str * Q) :=
  down <- gets executor_shutdown ;;
  if down : bool
  then raise (mkExn RuntimeError
                    (lit "cannot schedule new futures after shutdown") [])
  else tell (Submit text) ;; lift (analyze_sentiment_async text).

(** Lines 114-121. *)
Definition translate_if_needed (content : str) : M str :=
  if negb (isascii content)
  then try_except
         (tell (Translate content) ;;
          lift (translator self content))
         (fun e =>
            logger ERROR (lit "Error translating tweet: " ++ exn_str e) ;;
            ret content)
  else ret content.

(** The body of the inner [try], lines 98-142. *)
Definition tweet_body (tweet : web_element) : M unit :=
  raw <- lift (read_tweet tweet) ;;
  trans_content <- translate_if_needed (tweet_content raw) ;;
  sentiment_result <- submit_and_wait trans_content ;;
  let sentiment := fst sentiment_result in
  let sentiment_score := snd sentiment_result in
  append (record raw trans_content sentiment sentiment_score).

(** The handler of lines 143-145. *)
Definition tweet_handler (e : exn) : M unit :=
  logger ERROR (lit "Error extracting tweet: " ++ exn_str e) ;;
  logger DEBUG (exn_traceback e).

(** One iteration of the loop of line 96. *)
Definition process_tweet (tweet : web_element) : M unit :=
  try_except (tweet_body tweet) tweet_handler.

(** [self.driver.find_elements(By.CLASS_NAME, "timeline-item")] *)
Definition find_timeline_items : M (list web_element) :=
  tell FindTimelineItems ;;
  p <- gets current_page ;;
  lift (timeline_items p).

Definition extract_tweets : M unit :=
  try_except
    (tweets <- find_timeline_items ;;
     (match tweets with
      | [] => logger WARNING (lit "No tweets found on the page.")
      | _ => ret tt
      end) ;;
     for_each process_tweet tweets)
    (fun e =>
       logger ERROR (lit "Error while extracting tweets: " ++ exn_str e) ;;
       logger DEBUG (exn_traceback e)).

Definition url_of (query : str) : str :=
  lit "https://nitter.net/search?f=tweets&q=" ++ query.

(** [self.driver.get(url)] *)
Definition driver_get (url : str) : M unit :=
  tell (Get url) ;;
  gone <- gets driver_quit ;;
  if gone : bool
  then raise (mkExn Exception (lit "Connection refused") [])
  else p <- lift (serve self url) ;; navigate p.

(** [self.wait.until(EC.presence_of_element_located(... "timeline"))] *)
Definition wait_until_timeline : M unit :=
  tell WaitTimeline ;;
  p <- gets current_page ;;
  match wait_timeline p with
  | Some e => raise e
  | None => ret tt
  end.

(** The three handlers of lines 74-85; each ends in [return []]. *)
Definition load_handler (url : str) (e : exn) : M bool :=
  if isinstance e TimeoutException then
    logger WARNING
      (lit "TimeoutException: Failed to load tweets within the expected time. URL: "
           ++ url) ;;
    logger DEBUG (lit "Detailed Error: " ++ exn_str e) ;;
    ret false
  else if isinstance e WebDriverException then
    logger ERROR
      (lit "WebDriverException: Error loading URL " ++ url
           ++ lit ". Error Details: " ++ exn_str e) ;;
    logger DEBUG (lit "Stack Trace: " ++ exn_traceback e) ;;
    ret false
  else
    logger ERROR
      (lit "Unexpected error occurred while scraping: " ++ exn_str e) ;;
    logger DEBUG (lit "Stack Trace: " ++ exn_traceback e) ;;
    ret false.

(** Lines 65-85; [true] when the results page is loaded, [false] on
    each of the three paths that [return []]. *)
Definition open_search (url : str) : M bool :=
  try_except
    (logger INFO (lit "Accessing URL: " ++ url) ;;
     driver_get url ;;
     wait_until_timeline ;;
     logger INFO
       (lit "Successfully accessed and found tweets on URL: " ++ url) ;;
     ret true)
    (load_handler url).

(** Lines 157-158. *)
Definition click_show_more : M unit :=
  tell FindShowMore ;;
  p <- gets current_page ;;
  load_more_button <- lift (show_more p) ;;
  tell Click ;;
  next <- lift load_more_button ;;
  navigate next.

(** The handlers of lines 161-167; each ends in [break]. *)
Definition paginate_handler (e : exn) : M bool :=
  if isinstance e NoSuchElementException then
    logger WARNING
      (lit "No more 'Load More' button found. Stopping pagination.") ;;
    ret false
  else
    logger ERROR (lit "Error clicking 'Load More' button: " ++ exn_str e) ;;
    logger DEBUG (exn_traceback e) ;;
    ret false.

(** One iteration of the loop of line 155; [false] stands for [break]. *)
Definition paginate_once : M bool :=
  try_except
    (click_show_more ;;
     tell (Sleep 2) ;;
     extract_tweets ;;
     ret true)
    paginate_handler.

(** [for _ in range(n)] around [paginate_once]. *)
Fixpoint paginate (n : nat) : M unit :=
  match n with
  | O => ret tt
  | S n' =>
      again <- paginate_once ;;
      if again : bool then paginate n' else ret tt
  end.

(** [tweet_data = []] *)
Definition new_tweet_data : M unit :=
  fun s => (inr tt, set_tweet_data s []).

Definition scrape_tweets (query : str) (num_pages : Z) : M (list dict) :=
  let url := url_of query in
  logger INFO (lit "Starting scrape for query: " ++ query
                   ++ lit ", Number of pages: " ++ str_of_int num_pages) ;;
  loaded <- open_search url ;;
  if loaded : bool then
    new_tweet_data ;;
    extract_tweets ;;
    logger INFO (lit "Twitter data scraping started...") ;;
    paginate (Z.to_nat num_pages) ;;
    result <- gets tweet_data ;;
    logger INFO (lit "Twitter data scraping completed. "
                     ++ str_of_nat (List.length result)
                     ++ lit " tweets extracted.") ;;
    ret result
  else ret [].

(** The browser is gone; the executor takes no more work. *)
Definition mark_quit : M unit :=
  fun s => (inr tt,
            mkState (current_page s) true (executor_shutdown s)
                    (tweet_data s) (trace s)).

Definition mark_shutdown : M unit :=
  fun s => (inr tt,
            mkState (current_page s) (driver_quit s) true
                    (tweet_data s) (trace s)).

(** [close], lines 173-181.  [quit] and [shutdown] tell what
    [self.driver.quit()] and [self.executor.shutdown(wait=False)] raise,
    if anything. *)
Definition close (quit shutdown : option exn) : M unit :=
  try_except
    (tell Quit ;;
     (match quit with
      | Some e => raise e
      | None => mark_quit
      end) ;;
     tell Shutdown ;;
     (match shutdown with
      | Some e => raise e
      | None => mark_shutdown
      end) ;;
     logger INFO (lit "WebDriver and executor closed successfully."))
    (fun e =>
       logger ERROR (lit "Error closing WebDriver: " ++ exn_str e) ;;
       logger DEBUG (exn_traceback e)).

(** The [/analyze] endpoint: the status code with the body's result
    list, or with the error detail. *)
Inductive response :=
| OK200 (results : list dict)
| Error500 (detail : str).

Definition default_num_pages : Z := 2.

Definition analyze (request_text : str) : state -> response * state :=
  fun s =>
    match scrape_tweets request_text default_num_pages s with
    | (inr result, s') => (OK200 result, s')
    | (inl e, s') => (Error500 (exn_str e), s')
    end.

End Scraper.

(** ** Vocabulary of the properties *)

(** The document of a browser that has not navigated yet. *)
Definition blank : page :=
  mkPage None (inr []) (inl (no_such_element "show-more")).

(** A state with nothing accumulated and nothing traced. *)
Definition base (down : bool) : state := mkState blank false down [] [].

(** What one "timeline-item" contributes to the result list, and the
    calls its processing makes, observed on an empty accumulator. *)
Definition posts_of (self : TwitterSentimentScraper) (down : bool)
           (tweet : web_element) : list dict :=
  tweet_data (snd (process_tweet self tweet (base down))).

Definition calls_of (self : TwitterSentimentScraper) (down : bool)
           (tweet : web_element) : list event :=
  trace (snd (process_tweet self tweet (base down))).

(** The post elements of a page in DOM order. *)
Definition items (p : page) : list web_element :=
  match timeline_items p with
  | inr l => l
  | inl _ => []
  end.

(** The pages reached from [p] by at most [n] successful clicks on
    "show-more", in pagination order. *)
Fixpoint visited (n : nat) (p : page) : list page :=
  p :: match n with
       | O => []
       | S n' =>
           match show_more p with
           | inr (inr next) => visited n' next
           | _ => []
           end
       end.

(** The results page a request lands on, if the load of lines 65-72
    goes through. *)
Definition landing (self : TwitterSentimentScraper) (gone : bool)
           (query : str) : option page :=
  if gone then None
  else match serve self (url_of query) with
       | inr p => match wait_timeline p with
                  | None => Some p
                  | Some _ => None
                  end
       | inl _ => None
       end.

(** Page-then-DOM order. *)
Definition page_then_dom (self : TwitterSentimentScraper) (down : bool)
           (pages : list page) : list dict :=
  flat_map (fun p => flat_map (posts_of self down) (items p)) pages.

(** The thirteen keys of a record, in the order of the literal. *)
Definition field_names : list string :=
  [ "tweet_url"; "username"; "full_name"; "tweet_date"; "tweet_content";
    "trans_content"; "sentiment"; "sentiment_score"; "comments";
    "retweets"; "quotes"; "likes"; "image_url" ]%string.

(** The two fields the data model lets be null. *)
Definition nullable (k : string) : bool :=
  String.eqb k "tweet_url" || String.eqb k "image_url".

Definition is_none (v : val) : bool :=
  match v with
  | None_ => true
  | _ => false
  end.

Fixpoint same_keys (l1 l2 : list string) : bool :=
  match l1, l2 with
  | [], [] => true
  | k1 :: l1', k2 :: l2' => String.eqb k1 k2 && same_keys l1' l2'
  | _, _ => false
  end.

(** A complete record: exactly the thirteen keys, and a value other than
    [None] under each key that is not nullable. *)
Definition complete (d : dict) : bool :=
  same_keys (keys d) field_names
  && forallb (fun kv => nullable (fst kv) || negb (is_none (snd kv))) d.

(** The class names of the five lookups of lines 98-102. *)
Definition required_fields : list string :=
  [ "tweet-link"; "username"; "fullname"; "tweet-date"; "tweet-content" ]%string.

(** The text handed to the classifier for a post with body [content]. *)
Definition normalized (self : TwitterSentimentScraper) (content : str) : str :=
  if isascii content then content
  else match translator self content with
       | inr t => t
       | inl _ => content
       end.

(** The calls lines 114-121 make for a post with body [content]. *)
Definition translation_calls (self : TwitterSentimentScraper) (content : str)
  : list event :=
  if isascii content then []
  else Translate content
       :: match translator self content with
          | inr _ => []
          | inl e => [Log ERROR (lit "Error translating tweet: " ++ exn_str e)]
          end.

(** The calls one run of [extract_tweets] makes on page [p]. *)
Definition page_calls (self : TwitterSentimentScraper) (down : bool)
           (p : page) : list event :=
  FindTimelineItems
  :: match timeline_items p with
     | inl e => [Log ERROR (lit "Error while extracting tweets: " ++ exn_str e)]
     | inr [] => [Log WARNING (lit "No tweets found on the page.")]
     | inr l => flat_map (calls_of self down) l
     end.

(** The record logged by the handler of line 144. *)
Definition skipped (e : exn) : event :=
  Log ERROR (lit "Error extracting tweet: " ++ exn_str e).

(** The initial load of a request fails: [driver.get] raises, or the
    wait for the "timeline" marker does. *)
Definition load_fails (self : TwitterSentimentScraper) (query : str) : Prop :=
  (exists e, serve self (url_of query) = inl e)
  \/ (exists p e, serve self (url_of query) = inr p
                  /\ wait_timeline p = Some e).

(** The number of page extractions in a trace: [extract_tweets] makes
    one [find_elements] call on the driver each time it runs. *)
Definition extractions (t : list event) : nat :=
  List.length (filter (fun ev => match ev with
                                 | FindTimelineItems => true
                                 | _ => false
                                 end) t).

(** *** The calls of a request, in closed form *)

(** What the handlers of lines 161-167 log before [break]. *)
Definition break_calls (e : exn) : list event :=
  if isinstance e NoSuchElementException
  then [Log WARNING
            (lit "No more 'Load More' button found. Stopping pagination.")]
  else [Log ERROR (lit "Error clicking 'Load More' button: " ++ exn_str e)].

(** The calls of [n] rounds of the loop of line 155, started on [p]. *)
Fixpoint pagination_calls (self : TwitterSentimentScraper) (down : bool)
         (n : nat) (p : page) : list event :=
  match n with
  | O => []
  | S n' =>
      FindShowMore
      :: match show_more p with
         | inl e => break_calls e
         | inr (inl e) => Click :: break_calls e
         | inr (inr next) =>
             Click :: Sleep 2
             :: page_calls self down next
                  ++ pagination_calls self down n' next
         end
  end.

(** What the handlers of lines 74-85 log before [return []]. *)
Definition load_failure_calls (url : str) (e : exn) : list event :=
  if isinstance e TimeoutException then
    [Log WARNING
         (lit "TimeoutException: Failed to load tweets within the expected time. URL: "
              ++ url)]
  else if isinstance e WebDriverException then
    [Log ERROR (lit "WebDriverException: Error loading URL " ++ url
                    ++ lit ". Error Details: " ++ exn_str e)]
  else
    [Log ERROR (lit "Unexpected error occurred while scraping: "
                    ++ exn_str e)].

(** The calls of lines 65-85. *)
Definition load_calls (self : TwitterSentimentScraper) (gone : bool)
           (url : str) : list event :=
  Log INFO (lit "Accessing URL: " ++ url)
  :: Get url
  :: if gone
     then load_failure_calls url
            (mkExn Exception (lit "Connection refused") [])
     else match serve self url with
          | inl e => load_failure_calls url e
          | inr p =>
              WaitTimeline
              :: match wait_timeline p with
                 | Some e => load_failure_calls url e
                 | None =>
                     [Log INFO
                          (lit "Successfully accessed and found tweets on URL: "
                               ++ url)]
                 end
          end.

(** The calls of one request. *)
Definition request_calls (self : TwitterSentimentScraper) (gone down : bool)
           (query : str) (num_pages : Z) : list event :=
  Log INFO (lit "Starting scrape for query: " ++ query
                ++ lit ", Number of pages: " ++ str_of_int num_pages)
  :: load_calls self gone (url_of query)
  ++ match landing self gone query with
     | Some p =>
         page_calls self down p
           ++ Log INFO (lit "Twitter data scraping started...")
           :: pagination_calls self down (Z.to_nat num_pages) p
           ++ [Log INFO
                 (lit "Twitter data scraping completed. "
                      ++ str_of_nat
                           (List.length
                              (page_then_dom self down
                                 (visited (Z.to_nat num_pages) p)))
                      ++ lit " tweets extracted.")]
     | None => []
     end.

(** The number of events of a trace that satisfy [f]. *)
Definition count_if (f : event -> bool) (t : list event) : nat :=
  List.length (filter f t).

Definition is_click (ev : event) : bool :=
  match ev with Click => true | _ => false end.

Definition is_sleep (ev : event) : bool :=
  match ev with Sleep _ => true | _ => false end.

Definition is_get (ev : event) : bool :=
  match ev with Get _ => true | _ => false end.

Definition is_find_show_more (ev : event) : bool :=
  match ev with FindShowMore => true | _ => false end.

Definition is_translate (ev : event) : bool :=
  match ev with Translate _ => true | _ => false end.

Definition is_submit (ev : event) : bool :=
  match ev with Submit _ => true | _ => false end.

(** An event of the browser, as opposed to a log record or a call to
    one of the two enrichment backends. *)
Definition is_browser (ev : event) : bool :=
  match ev with
  | Log _ _ | Translate _ | Submit _ => false
  | _ => true
  end.

(** *** Posts and their fields *)

(** A string without white space at either end. *)
Definition trimmed (s : str) : bool :=
  match s with
  | [] => true
  | c :: _ => negb (isspace c) && negb (isspace (last s c))
  end.

(** The post elements whose fields lines 98-112 manage to read, and
    among them those whose body is not ASCII. *)
Definition readable (tweet : web_element) : bool :=
  match read_tweet tweet with
  | inr _ => true
  | inl _ => false
  end.

Definition needs_translation (tweet : web_element) : bool :=
  match read_tweet tweet with
  | inr raw => negb (isascii (tweet_content raw))
  | inl _ => false
  end.

(** Every post element of the pages a request visits. *)
Definition visited_items (self : TwitterSentimentScraper) (gone : bool)
           (query : str) (num_pages : Z) : list web_element :=
  match landing self gone query with
  | Some p => flat_map items (visited (Z.to_nat num_pages) p)
  | None => []
  end.

(** *** Records of the log *)

Definition is_error_log (ev : event) : bool :=
  match ev with
  | Log ERROR _ => true
  | _ => false
  end.

(** [s.startswith(prefix)] *)
Fixpoint starts_with (prefix s : str) : bool :=
  match prefix, s with
  | [], _ => true
  | c :: prefix', d :: s' => (c =? d)%N && starts_with prefix' s'
  | _ :: _, [] => false
  end.

(** The ERROR record of line 165. *)
Definition is_click_failure (ev : event) : bool :=
  match ev with
  | Log ERROR msg =>
      starts_with (lit "Error clicking 'Load More' button: ") msg
  | _ => false
  end.

(** ** The life cycle of the session *)

(** What the process finds around it when it builds a scraper: the
    environment, the browser driver, the model hub and the translation
    client.  A started browser is what it serves; a loaded pipeline and
    a translator are what they answer. *)
Record platform := {
  getenv : string -> option str;
  firefox : str -> list str -> result (str -> result page);
  pipeline : str -> str -> result (str -> result (list (str * Q)));
  new_translator : result (str -> result str)
}.

Definition default_geckodriver_path : str :=
  lit "/Users/neeleshpandya/Desktop/tweeter/xcom/geckodriver".

Definition default_sentiment_model : str :=
  lit "cardiffnlp/twitter-roberta-base-sentiment-latest".

(** [os.getenv("GECKODRIVER_PATH", default)] *)
Definition geckodriver_path (os : platform) : str :=
  match getenv os "GECKODRIVER_PATH" with
  | Some path => path
  | None => default_geckodriver_path
  end.

(** A browser has just started, an executor has just been created. *)
Definition new_browser : M unit :=
  fun s => (inr tt,
            mkState blank false (executor_shutdown s) (tweet_data s)
                    (trace s)).

Definition new_executor : M unit :=
  fun s => (inr tt,
            mkState (current_page s) (driver_quit s) false (tweet_data s)
                    (trace s)).

(** [__init__], lines 29-54. *)
Definition init (os : platform) (headless : bool) (sentiment_model : str)
  : M TwitterSentimentScraper :=
  try_except
    (let options := if headless then [lit "--headless"] else [] in
     driver <- lift (firefox os (geckodriver_path os) options) ;;
     new_browser ;;
     logger INFO (lit "WebDriver initialized successfully.") ;;
     pipe <- lift (pipeline os (lit "text-classification") sentiment_model) ;;
     tr <- lift (new_translator os) ;;
     new_executor ;;
     ret {| serve := driver; translator := tr; sentiment_pipe := pipe |})
    (fun e =>
       if isinstance e WebDriverException then
         logger ERROR (lit "Error initializing WebDriver: " ++ exn_str e) ;;
         logger DEBUG (exn_traceback e) ;;
         raise e
       else raise e).

(** The global [scraper] beside the session it stands for. *)
Record process := {
  scraper : option TwitterSentimentScraper;
  session : state
}.

(** The body guarded by [scraper_lock] in lines 192-194 and 214-216. *)
Definition create_if_missing (os : platform) (pr : process)
  : result TwitterSentimentScraper * process :=
  match scraper pr with
  | Some sc => (inr sc, pr)
  | None =>
      match init os true default_sentiment_model (session pr) with
      | (inr sc, s') => (inr sc, {| scraper := Some sc; session := s' |})
      | (inl e, s') => (inl e, {| scraper := None; session := s' |})
      end
  end.

(** [get_scraper], lines 211-217. *)
Definition get_scraper (os : platform) (pr : process)
  : result TwitterSentimentScraper * process :=
  create_if_missing os pr.

Definition in_session {A} (m : M A) (pr : process) : result A * process :=
  match m (session pr) with
  | (r, s') => (r, {| scraper := scraper pr; session := s' |})
  end.

(** [lifespan] up to its [yield], lines 190-194. *)
Definition lifespan_startup (os : platform) (pr : process)
  : result unit * process :=
  match in_session (logger INFO (lit "Starting FastAPI application...")) pr
  with
  | (_, pr1) =>
      match create_if_missing os pr1 with
      | (inr _, pr2) => (inr tt, pr2)
      | (inl e, pr2) => (inl e, pr2)
      end
  end.

(** [lifespan] after its [yield], lines 196-198. *)
Definition lifespan_shutdown (quit shutdown : option exn) (pr : process)
  : result unit * process :=
  in_session
    ((match scraper pr with
      | Some _ => close quit shutdown
      | None => ret tt
      end) ;;
     logger INFO (lit "Shutting down FastAPI application..."))
    pr.

(** A [POST /analyze]: the dependency of line 220, then the body of
    the endpoint.  An exception of the dependency leaves the endpoint
    to the framework. *)
Definition post_analyze (os : platform) (text : str) (pr : process)
  : result response * process :=
  match get_scraper os pr with
  | (inr sc, pr1) =>
      match analyze sc text (session pr1) with
      | (answer, s') => (inr answer, {| scraper := scraper pr1; session := s' |})
      end
  | (inl e, pr1) => (inl e, pr1)
  end.

(** ** Test doubles

    Small pages and backends on which the definitions above run. *)

Definition node (cls : string) (txt : str) (attrs : list (string * str))
  : dom_node :=
  {| node_class := cls; node_text := txt; node_attrs := attrs |}.

(** A post with every required field, the given body, the given stat
    texts and, optionally, an avatar. *)
Definition post (link : string) (body : str) (stats : list string)
           (with_avatar : bool) : web_element :=
  render
    ([ node "tweet-link" [] [("href"%string, lit link)];
       node "fullname" (lit " Ada L. ") [];
       node "username" (lit "@ada") [];
       node "tweet-date" (lit "Nov 4") [];
       node "tweet-content" body [] ]
       ++ map (fun s => node "tweet-stat" (lit s) []) stats
       ++ (if with_avatar
           then [node "avatar.round" [] [("src"%string, lit "/pic/ada.jpg")]]
           else [])).

(** The same post without its "username" element. *)
Definition post_without_username (link : string) (body : str)
  : web_element :=
  render
    [ node "tweet-link" [] [("href"%string, lit link)];
      node "fullname" (lit "Ada L.") [];
      node "tweet-date" (lit "Nov 4") [];
      node "tweet-content" body [] ].

Definition boom (c : exn_class) (msg : string) : exn := mkExn c (lit msg) [].

(** "café": one code point above U+007F. *)
Definition cafe : str := lit "caf" ++ [233%N].

Definition positive : list (str * Q) := [(lit "positive", (9 # 10)%Q)].

(** Backends: the classifier answers "positive", or fails on the text
    "bad"; the translator is down, or answers "coffee". *)
Definition classifier (text : str) : result (list (str * Q)) :=
  if list_eq_dec N.eq_dec text (lit "bad")
  then inl (boom RuntimeError "model failure")
  else inr positive.

Definition last_page (items : list web_element) : page :=
  mkPage None (inr items) (inl (no_such_element "show-more")).

Definition more_page (items : list web_element) (next : page) : page :=
  mkPage None (inr items) (inr (inr next)).

Definition site (p : page) : str -> result page := fun _ => inr p.

Definition scraper_down (landing : page) : TwitterSentimentScraper :=
  {| serve := site landing;
     translator := fun _ => inl (boom Exception "translation service down");
     sentiment_pipe := classifier |}.

Definition scraper_up (landing : page) : TwitterSentimentScraper :=
  {| serve := site landing;
     translator := fun _ => inr (lit "coffee");
     sentiment_pipe := classifier |}.

(** A session freshly built by [__init__]. *)
Definition fresh : state := mkState blank false false [] [].

(** Three pages of one post each, every page but the last with a
    "show-more" control. *)
Definition three_pages : page :=
  more_page [post "/a/1" (lit "one") [] true]
    (more_page [post "/a/2" (lit "two") [] true]
       (last_page [post "/a/3" (lit "three") [] true])).

(** One page with one post whose body is not ASCII. *)
Definition cafe_page : page := last_page [post "/a/9" cafe [] true].

(** A machine on which everything starts, with the driver at the
    default path; one without a usable driver; one without the model. *)
Definition laptop : platform :=
  {| getenv := fun _ => None;
     firefox := fun path _ =>
       if list_eq_dec N.eq_dec path default_geckodriver_path
       then inr (site three_pages)
       else inl (boom WebDriverException "geckodriver not found");
     pipeline := fun _ _ => inr classifier;
     new_translator := inr (fun _ => inr (lit "coffee")) |}.

Definition no_driver : platform :=
  {| getenv := fun _ => Some (lit "/opt/geckodriver");
     firefox := fun _ _ => inl (boom WebDriverException "geckodriver not found");
     pipeline := fun _ _ => inr classifier;
     new_translator := inr (fun _ => inr (lit "coffee")) |}.

Definition no_model : platform :=
  {| getenv := fun _ => None;
     firefox := fun _ _ => inr (site three_pages);
     pipeline := fun _ _ => inl (boom Exception "model not found");
     new_translator := inr (fun _ => inr (lit "coffee")) |}.

(** A process that has not built its scraper yet. *)
Definition idle : process := {| scraper := None; session := fresh |}.

(** Two pages; the "show-more" control of the second is there, and
    clicking it raises. *)
Definition stuck_on_second : page :=
  more_page [post "/a/1" (lit "one") [] true]
    (mkPage None (inr [post "/a/2" (lit "two") [] true])
            (inr (inl (boom WebDriverException "element not interactable")))).

(** One page whose only post the classifier fails on, one whose only
    post has no user name, and one without posts. *)
Definition unscored_page : page := last_page [post "/a/4" (lit "bad") [] true].

Definition nameless_page : page :=
  last_page [post_without_username "/a/4" (lit "bad")].

Definition empty_page : page := last_page [].

(** A site that cannot be reached. *)
Definition scraper_offline : TwitterSentimentScraper :=
  {| serve := fun _ => inl (boom WebDriverException "net::ERR_CONNECTION");
     translator := fun _ => inr (lit "coffee");
     sentiment_pipe := classifier |}.

(** ** The monad's primitives *)

Lemma logger_error (msg : str) (s : state) :
  logger ERROR msg s = (inr tt, set_trace s (trace s ++ [Log ERROR msg])).
Proof. reflexivity. Qed.

Lemma logger_info (msg : str) (s : state) :
  logger INFO msg s = (inr tt, set_trace s (trace s ++ [Log INFO msg])).
Proof. reflexivity. Qed.

Lemma logger_debug (msg : str) (s : state) : logger DEBUG msg s = (inr tt, s).
Proof. reflexivity. Qed.

Lemma tweet_handler_run (self : TwitterSentimentScraper) (e : exn) (s : state) :
  tweet_handler e s
  = (inr tt,
     set_trace s (trace s ++ [Log ERROR (lit "Error extracting tweet: "
                                             ++ exn_str e)])).
Proof. reflexivity. Qed.

Ltac list_eq := repeat rewrite <- app_assoc; rewrite ?app_nil_r; reflexivity.

Lemma process_tweet_run (self : TwitterSentimentScraper) (t : web_element)
      (s : state) :
  process_tweet self t s
  = (inr tt,
     mkState (current_page s) (driver_quit s) (executor_shutdown s)
             (tweet_data s ++ posts_of self (executor_shutdown s) t)
             (trace s ++ calls_of self (executor_shutdown s) t)).
Proof.
  destruct s as [p dq down td tr].
  unfold posts_of, calls_of, process_tweet, tweet_body, try_except, bind, lift.
  destruct (read_tweet t) as [e | raw]; cbn.
  - f_equal. unfold set_trace; cbn. f_equal; list_eq.
  - unfold translate_if_needed, submit_and_wait, try_except, bind, lift, gets.
    destruct (isascii (tweet_content raw)); cbn.
    + destruct down; cbn.
      * unfold set_trace; cbn. do 2 f_equal; list_eq.
      * destruct (analyze_sentiment_async self (tweet_content raw)); cbn;
          unfold set_trace, set_tweet_data; cbn; do 2 f_equal; list_eq.
    + destruct (translator self (tweet_content raw)) as [e | t']; cbn;
        destruct down; cbn;
        try (unfold set_trace; cbn; do 2 f_equal; list_eq).
      * destruct (analyze_sentiment_async self (tweet_content raw)); cbn;
          unfold set_trace, set_tweet_data; cbn; do 2 f_equal; list_eq.
      * destruct (analyze_sentiment_async self t'); cbn;
          unfold set_trace, set_tweet_data; cbn; do 2 f_equal; list_eq.
Qed.

Lemma for_each_process_tweet (self : TwitterSentimentScraper)
      (l : list web_element) (s : state) :
  for_each (process_tweet self) l s
  = (inr tt,
     mkState (current_page s) (driver_quit s) (executor_shutdown s)
             (tweet_data s ++ flat_map (posts_of self (executor_shutdown s)) l)
             (trace s ++ flat_map (calls_of self (executor_shutdown s)) l)).
Proof.
  revert s. induction l as [| t l IH]; intros s.
  - destruct s; cbn. now rewrite !app_nil_r.
  - cbn [for_each flat_map]. unfold bind.
    rewrite process_tweet_run, IH. cbn. do 2 f_equal; list_eq.
Qed.

(** *** Counting extractions *)

Lemma extractions_app (a b : list event) :
  extractions (a ++ b) = extractions a + extractions b.
Proof. unfold extractions. now rewrite filter_app, length_app. Qed.

Ltac tweet_cases self t down :=
  unfold process_tweet, tweet_body, try_except, bind, lift;
  destruct (read_tweet t) as [? | raw]; cbn;
  [ | unfold translate_if_needed, submit_and_wait, try_except, bind, lift,
        gets;
      destruct (isascii (tweet_content raw)); cbn;
      [ | destruct (translator self (tweet_content raw)); cbn ];
      destruct down; cbn;
      try match goal with
          | |- context [analyze_sentiment_async self ?x] =>
              destruct (analyze_sentiment_async self x); cbn
          end ].

Lemma calls_of_extractions (self : TwitterSentimentScraper) (down : bool)
      (t : web_element) :
  extractions (calls_of self down t) = 0.
Proof. unfold calls_of. tweet_cases self t down; reflexivity. Qed.

Lemma flat_map_calls_extractions (self : TwitterSentimentScraper)
      (down : bool) (l : list web_element) :
  extractions (flat_map (calls_of self down) l) = 0.
Proof.
  induction l as [| t l IH]; [reflexivity |].
  cbn [flat_map]. now rewrite extractions_app, calls_of_extractions, IH.
Qed.

(** *** One page *)

Lemma extract_tweets_eq (self : TwitterSentimentScraper) (s : state) :
  extract_tweets self s
  = (inr tt,
     mkState (current_page s) (driver_quit s) (executor_shutdown s)
             (tweet_data s
                ++ flat_map (posts_of self (executor_shutdown s))
                            (items (current_page s)))
             (trace s
                ++ page_calls self (executor_shutdown s) (current_page s))).
Proof.
  destruct s as [p dq down td tr].
  unfold extract_tweets, find_timeline_items, try_except, bind, lift, gets,
    items, page_calls.
  cbn. destruct (timeline_items p) as [e | l]; cbn.
  - unfold set_trace; cbn. rewrite app_nil_r, <- app_assoc. reflexivity.
  - destruct l as [| t l].
    + cbn. unfold set_trace; cbn. rewrite app_nil_r, <- app_assoc.
      reflexivity.
    + unfold ret. rewrite for_each_process_tweet. cbn.
      rewrite <- !app_assoc. reflexivity.
Qed.

Lemma page_calls_extractions (self : TwitterSentimentScraper) (down : bool)
      (p : page) :
  extractions (page_calls self down p) = 1.
Proof.
  unfold page_calls.
  change (FindTimelineItems :: ?x) with ([FindTimelineItems] ++ x).
  rewrite extractions_app.
  destruct (timeline_items p) as [e | [| t l]]; try reflexivity.
  now rewrite flat_map_calls_extractions.
Qed.

Lemma extract_tweets_run (self : TwitterSentimentScraper) (s : state) :
  exists calls,
    extract_tweets self s
    = (inr tt,
       mkState (current_page s) (driver_quit s) (executor_shutdown s)
               (tweet_data s
                  ++ flat_map (posts_of self (executor_shutdown s))
                              (items (current_page s)))
               (trace s ++ calls))
    /\ extractions calls = 1.
Proof.
  eexists. split; [apply extract_tweets_eq | apply page_calls_extractions].
Qed.

(** *** Pagination *)

Lemma paginate_handler_run (e : exn) (s : state) :
  exists calls,
    paginate_handler e s = (inr false, set_trace s (trace s ++ calls))
    /\ extractions calls = 0.
Proof.
  unfold paginate_handler. destruct (isinstance e NoSuchElementException);
    eexists; split; try reflexivity; reflexivity.
Qed.

Lemma visited_head (n : nat) (p : page) :
  visited n p = p :: tl (visited n p).
Proof. destruct n; reflexivity. Qed.

Lemma page_then_dom_visited (self : TwitterSentimentScraper) (down : bool)
      (n : nat) (p : page) :
  page_then_dom self down (visited n p)
  = flat_map (posts_of self down) (items p)
      ++ page_then_dom self down (tl (visited n p)).
Proof. rewrite visited_head at 1. reflexivity. Qed.

Lemma length_visited (n : nat) (p : page) :
  List.length (visited n p) = S (List.length (tl (visited n p))).
Proof. rewrite visited_head at 1. reflexivity. Qed.

Lemma paginate_run (self : TwitterSentimentScraper) (n : nat) (s : state) :
  exists calls p',
    paginate self n s
    = (inr tt,
       mkState p' (driver_quit s) (executor_shutdown s)
               (tweet_data s
                  ++ page_then_dom self (executor_shutdown s)
                       (tl (visited n (current_page s))))
               (trace s ++ calls))
    /\ extractions calls = List.length (tl (visited n (current_page s))).
Proof.
  revert s. induction n as [| n IH]; intros [p dq down td tr].
  - exists [], p. cbn. now rewrite !app_nil_r.
  - cbn [paginate visited tl current_page driver_quit executor_shutdown
           tweet_data trace].
    unfold bind at 1. unfold paginate_once, try_except.
    unfold bind at 1. unfold click_show_more.
    unfold bind, tell, gets, lift, navigate. cbn.
    destruct (show_more p) as [e | [e | next]]; cbn.
    + destruct (paginate_handler_run e
                  (set_trace (mkState p dq down td tr) (tr ++ [FindShowMore])))
        as (calls & Heq & Hc).
      rewrite Heq. cbn. exists ([FindShowMore] ++ calls), p.
      rewrite app_nil_r, extractions_app, Hc. split; [| reflexivity].
      unfold set_trace; cbn. now rewrite <- !app_assoc.
    + destruct (paginate_handler_run e
                  (set_trace (mkState p dq down td tr)
                             ((tr ++ [FindShowMore]) ++ [Click])))
        as (calls & Heq & Hc).
      unfold set_trace in *; cbn in *.
      rewrite Heq. cbn. exists ([FindShowMore; Click] ++ calls), p.
      rewrite app_nil_r, extractions_app, Hc. split; [| reflexivity].
      now rewrite <- !app_assoc.
    + unfold set_trace, set_page; cbn.
      match goal with
      | |- context [extract_tweets self ?s1] =>
          destruct (extract_tweets_run self s1) as (calls & Heq & Hc);
          rewrite Heq; clear Heq
      end.
      cbn.
      match goal with
      | |- context [paginate self n ?s2] =>
          destruct (IH s2) as (calls2 & p' & Heq2 & Hc2);
          rewrite Heq2; clear Heq2
      end.
      cbn in *.
      exists ([FindShowMore; Click; Sleep 2] ++ calls ++ calls2), p'.
      split.
      * rewrite page_then_dom_visited. do 2 f_equal; list_eq.
      * rewrite !extractions_app, Hc, Hc2, length_visited. reflexivity.
Qed.

(** *** A whole request *)

Lemma load_handler_run (url : str) (e : exn) (s : state) :
  exists calls,
    load_handler url e s = (inr false, set_trace s (trace s ++ calls))
    /\ extractions calls = 0.
Proof.
  unfold load_handler.
  destruct (isinstance e TimeoutException);
    [| destruct (isinstance e WebDriverException)];
    eexists; split; try reflexivity; reflexivity.
Qed.

Lemma open_search_run (self : TwitterSentimentScraper) (query : str)
      (s : state) :
  exists calls p',
    open_search self (url_of query) s
    = (inr match landing self (driver_quit s) query with
           | Some _ => true
           | None => false
           end,
       mkState p' (driver_quit s) (executor_shutdown s) (tweet_data s)
               (trace s ++ calls))
    /\ extractions calls = 0
    /\ (forall p, landing self (driver_quit s) query = Some p -> p' = p).
Proof.
  destruct s as [p0 dq down td tr].
  unfold open_search, landing, try_except, driver_get, wait_until_timeline.
  unfold bind, tell, gets, lift, navigate. cbn.
  destruct dq; cbn.
  - eexists. exists p0. repeat split.
    + unfold ret, set_trace; cbn. rewrite <- !app_assoc. reflexivity.
    + reflexivity.
    + discriminate.
  - destruct (serve self (url_of query)) as [e | p]; cbn.
    + match goal with
      | |- context [load_handler ?u ?e ?s1] =>
          destruct (load_handler_run u e s1) as (calls & Heq & Hc); rewrite Heq
      end.
      cbn. eexists. exists p0. repeat split.
      * unfold set_trace; cbn. rewrite <- !app_assoc. reflexivity.
      * rewrite !extractions_app, Hc. reflexivity.
      * discriminate.
    + destruct (wait_timeline p) as [e |]; cbn.
      * match goal with
        | |- context [load_handler ?u ?e ?s1] =>
            destruct (load_handler_run u e s1) as (calls & Heq & Hc);
            rewrite Heq
        end.
        cbn. eexists. exists p. repeat split.
        -- unfold set_trace; cbn. rewrite <- !app_assoc. reflexivity.
        -- rewrite !extractions_app, Hc. reflexivity.
        -- discriminate.
      * eexists. exists p. repeat split.
        -- unfold set_trace; cbn. rewrite <- !app_assoc. reflexivity.
        -- reflexivity.
        -- now intros ? [= ->].
Qed.

Lemma scrape_tweets_run (self : TwitterSentimentScraper) (query : str)
      (num_pages : Z) (s : state) :
  exists calls p' td',
    scrape_tweets self query num_pages s
    = (inr match landing self (driver_quit s) query with
           | Some p =>
               page_then_dom self (executor_shutdown s)
                             (visited (Z.to_nat num_pages) p)
           | None => []
           end,
       mkState p' (driver_quit s) (executor_shutdown s) td'
               (trace s ++ calls))
    /\ extractions calls
       = match landing self (driver_quit s) query with
         | Some p => List.length (visited (Z.to_nat num_pages) p)
         | None => 0
         end.
Proof.
  unfold scrape_tweets. unfold bind at 1. rewrite logger_info.
  unfold bind at 1.
  match goal with
  | |- context [open_search self _ ?s1] =>
      destruct (open_search_run self query s1) as (c1 & p1 & Heq & Hc1 & Hp);
      rewrite Heq; clear Heq
  end.
  cbn [set_trace current_page driver_quit executor_shutdown tweet_data trace]
    in *.
  destruct (landing self (driver_quit s) query) as [p |].
  - rewrite (Hp p eq_refl). clear Hp.
    unfold bind at 1. unfold new_tweet_data, set_tweet_data. cbn.
    unfold bind at 1.
    match goal with
    | |- context [extract_tweets self ?s1] =>
        destruct (extract_tweets_run self s1) as (c2 & Heq & Hc2);
        rewrite Heq; clear Heq
    end.
    cbn. unfold bind at 1.
    match goal with
    | |- context [paginate self ?n ?s1] =>
        destruct (paginate_run self n s1) as (c3 & p3 & Heq & Hc3);
        rewrite Heq; clear Heq
    end.
    cbn in *. unfold bind, gets, tell, ret. cbn.
    eexists. exists p3. eexists. split.
    + rewrite page_then_dom_visited. f_equal.
      unfold set_trace; cbn. f_equal. rewrite <- !app_assoc. reflexivity.
    + rewrite !extractions_app, Hc1, Hc2, Hc3, length_visited.
      unfold extractions; cbn. lia.
  - cbn. eexists. exists p1. eexists. split.
    + rewrite <- !app_assoc. reflexivity.
    + rewrite !extractions_app, Hc1. reflexivity.
Qed.

(** *** One post, in closed form *)

Lemma translate_if_needed_run (self : TwitterSentimentScraper) (content : str)
      (s : state) :
  translate_if_needed self content s
  = (inr (normalized self content),
     set_trace s (trace s ++ translation_calls self content)).
Proof.
  destruct s as [p dq down td tr].
  unfold translate_if_needed, normalized, translation_calls, try_except, bind,
    lift.
  destruct (isascii content); cbn.
  - unfold ret, set_trace; cbn. now rewrite app_nil_r.
  - destruct (translator self content); cbn; unfold set_trace; cbn;
      do 2 f_equal; list_eq.
Qed.

Lemma posts_of_eq (self : TwitterSentimentScraper) (down : bool)
      (t : web_element) :
  posts_of self down t
  = match read_tweet t with
    | inl _ => []
    | inr raw =>
        let trans_content := normalized self (tweet_content raw) in
        if down then []
        else match analyze_sentiment_async self trans_content with
             | inr (sentiment, sentiment_score) =>
                 [record raw trans_content sentiment sentiment_score]
             | inl _ => []
             end
    end.
Proof.
  unfold posts_of, process_tweet, tweet_body, try_except.
  unfold bind at 1. unfold lift at 1.
  destruct (read_tweet t) as [e | raw]; [reflexivity |].
  unfold bind at 1. rewrite translate_if_needed_run.
  unfold submit_and_wait, bind, gets, lift. cbn.
  destruct down; cbn; [reflexivity |].
  destruct (analyze_sentiment_async self (normalized self (tweet_content raw)))
    as [e | [l sc]]; reflexivity.
Qed.

Lemma calls_of_eq (self : TwitterSentimentScraper) (down : bool)
      (t : web_element) :
  calls_of self down t
  = match read_tweet t with
    | inl e => [skipped e]
    | inr raw =>
        let trans_content := normalized self (tweet_content raw) in
        translation_calls self (tweet_content raw)
          ++ if down
             then [skipped
                     (mkExn RuntimeError
                        (lit "cannot schedule new futures after shutdown") [])]
             else Submit trans_content
                  :: match analyze_sentiment_async self trans_content with
                     | inr _ => []
                     | inl e => [skipped e]
                     end
    end.
Proof.
  unfold calls_of, process_tweet, tweet_body, try_except.
  unfold bind at 1. unfold lift at 1.
  destruct (read_tweet t) as [e | raw]; [reflexivity |].
  unfold bind at 1. rewrite translate_if_needed_run.
  unfold submit_and_wait, bind, gets, lift. cbn.
  destruct down; cbn; [reflexivity |].
  destruct (analyze_sentiment_async self (normalized self (tweet_content raw)))
    as [e | [l sc]]; cbn; now rewrite <- ?app_assoc.
Qed.

Lemma normalized_ascii (self : TwitterSentimentScraper) (content : str) :
  isascii content = true -> normalized self content = content.
Proof. unfold normalized. now intros ->. Qed.

Lemma normalized_fallback (self : TwitterSentimentScraper) (content : str)
      (e : exn) :
  translator self content = inl e -> normalized self content = content.
Proof. unfold normalized. intros ->. now destruct (isascii content). Qed.

Lemma in_posts_of (self : TwitterSentimentScraper) (down : bool)
      (t : web_element) (d : dict) :
  In d (posts_of self down t) ->
  exists raw sentiment sentiment_score,
    read_tweet t = inr raw
    /\ down = false
    /\ analyze_sentiment_async self (normalized self (tweet_content raw))
       = inr (sentiment, sentiment_score)
    /\ d = record raw (normalized self (tweet_content raw))
                  sentiment sentiment_score.
Proof.
  rewrite posts_of_eq.
  destruct (read_tweet t) as [e | raw] eqn:Hread; [intros [] |].
  cbn zeta. destruct down; [intros [] |].
  destruct (analyze_sentiment_async self (normalized self (tweet_content raw)))
    as [e | [l sc]] eqn:Hcls; [intros [] |].
  intros [<- | []]. exists raw, l, sc. repeat split; assumption.
Qed.

(** ** Properties of the pipeline *)

(** C4.  When the body of a post is not ASCII and the translator raises,
    lines 114-121 return the body itself and do not raise; the only
    traces of the failure are the call and one ERROR record.  A post read
    with such a body carries it unchanged under "trans_content", and is
    appended whenever the classifier answers on that text. *)
Theorem translation_failure_falls_back
        (self : TwitterSentimentScraper) (content : str) (e : exn)
        (s : state) :
  isascii content = false ->
  translator self content = inl e ->
  translate_if_needed self content s
  = (inr content,
     set_trace s
       (trace s ++ [Translate content;
                    Log ERROR (lit "Error translating tweet: " ++ exn_str e)]))
  /\ forall tweet raw sentiment sentiment_score,
      read_tweet tweet = inr raw ->
      tweet_content raw = content ->
      analyze_sentiment_async self content = inr (sentiment, sentiment_score) ->
      posts_of self false tweet
      = [record raw content sentiment sentiment_score].
Proof.
  intros Hascii Hfail. split.
  - rewrite translate_if_needed_run.
    rewrite (normalized_fallback _ _ _ Hfail).
    unfold translation_calls. now rewrite Hascii, Hfail.
  - intros tweet raw l sc Hread Hc Hcls.
    rewrite posts_of_eq, Hread. cbn zeta. rewrite Hc.
    rewrite (normalized_fallback _ _ _ Hfail). now rewrite Hcls.
Qed.

Lemma translation_failure_falls_back_witness :
  translate_if_needed (scraper_down blank) cafe fresh
  = (inr cafe,
     set_trace fresh
       [Translate cafe;
        Log ERROR (lit "Error translating tweet: translation service down")]).
Proof.
  apply (translation_failure_falls_back (scraper_down blank) cafe
           (boom Exception "translation service down") fresh);
    reflexivity.
Defined.

(** C5.  When the body of a post is ASCII, lines 114-121 return it as it
    is and leave the state, hence the trace of calls, untouched: the
    translator is not called.  Processing a post read with such a body
    makes no [Translate] call at all, and every record it appends carries
    the body unchanged under "trans_content". *)
Theorem ascii_text_is_never_translated
        (self : TwitterSentimentScraper) (content : str) (s : state) :
  isascii content = true ->
  translate_if_needed self content s = (inr content, s)
  /\ forall tweet raw down,
      read_tweet tweet = inr raw ->
      tweet_content raw = content ->
      (forall x, ~ In (Translate x) (calls_of self down tweet))
      /\ forall d, In d (posts_of self down tweet) ->
                   Py.get d "tweet_content" = Some (Str content)
                   /\ Py.get d "trans_content" = Some (Str content).
Proof.
  intros Hascii. split.
  - rewrite translate_if_needed_run, (normalized_ascii _ _ Hascii).
    unfold translation_calls. rewrite Hascii.
    destruct s; unfold set_trace; cbn. now rewrite app_nil_r.
  - intros tweet raw down Hread Hc. split.
    + intros x. rewrite calls_of_eq, Hread. cbn zeta.
      unfold translation_calls. rewrite Hc, Hascii. cbn [app].
      destruct down.
      * intros [H | []]; discriminate.
      * intros [H | H]; [discriminate |].
        destruct (analyze_sentiment_async self (normalized self content));
          [destruct H as [H | []]; discriminate | destruct H].
    + intros d Hd. apply in_posts_of in Hd.
      destruct Hd as (raw' & l & sc & Hread' & _ & _ & ->).
      rewrite Hread in Hread'. injection Hread' as <-. subst content.
      rewrite (normalized_ascii _ _ Hascii). split; reflexivity.
Qed.

Lemma ascii_text_is_never_translated_witness :
  translate_if_needed (scraper_up blank) (lit "one") fresh
  = (inr (lit "one"), fresh).
Proof.
  apply (ascii_text_is_never_translated (scraper_up blank) (lit "one") fresh).
  reflexivity.
Defined.

(** *** Reading one post *)

Ltac read_steps H :=
  repeat match type of H with
         | and_then ?r _ = inr _ =>
             let E := fresh "E" in
             destruct r eqn:E; cbn [and_then] in H; [discriminate H |]
         | (let '(_, _) := ?c in _) = inr _ => destruct c
         end.

Lemma read_tweet_inr (tweet : web_element) (raw : raw_post) :
  read_tweet tweet = inr raw ->
  exists stats,
    find_elements tweet "tweet-stat" = inr stats
    /\ unpack_stats stats
       = inr (comments raw, retweets raw, quotes raw, likes raw)
    /\ attribute tweet "tweet-link" "href" = inr (tweet_link raw)
    /\ stripped_text tweet "username" = inr (username raw)
    /\ stripped_text tweet "fullname" = inr (full_name raw)
    /\ stripped_text tweet "tweet-date" = inr (tweet_date raw)
    /\ stripped_text tweet "tweet-content" = inr (tweet_content raw)
    /\ avatar tweet = inr (image_url raw).
Proof.
  unfold read_tweet. intros H. read_steps H.
  injection H as <-. cbn. eexists. repeat split; eassumption.
Qed.

(** C6.  With at most four "tweet-stat" elements whose texts can be
    read, the generator of lines 105-107 yields the stripped texts in
    their order, followed by "0" for every slot that is left; these are
    the comments, retweets, quotes and likes of the post read. *)
Theorem missing_stats_default_to_zero
        (stats : list sub_element) (texts : list str) :
  List.length stats <= 4 ->
  map text stats = map inr texts ->
  let counts :=
    map strip texts ++ repeat (lit "0") (4 - List.length stats) in
  unpack_stats stats
  = inr (nth 0 counts [], nth 1 counts [], nth 2 counts [], nth 3 counts [])
  /\ forall tweet raw,
      find_elements tweet "tweet-stat" = inr stats ->
      read_tweet tweet = inr raw ->
      [comments raw; retweets raw; quotes raw; likes raw] = counts.
Proof.
  intros Hlen Htexts counts.
  assert (Hunpack :
            unpack_stats stats
            = inr (nth 0 counts [], nth 1 counts [],
                   nth 2 counts [], nth 3 counts [])
            /\ List.length counts = 4).
  { subst counts. unfold unpack_stats, stat_at.
    destruct stats as [| a [| b [| c [| d [| x stats]]]]];
      destruct texts as [| ta [| tb [| tc [| td [| tx texts]]]]];
      cbn in Hlen, Htexts; try discriminate Htexts; try lia;
      inversion Htexts; cbn;
      repeat match goal with
             | H : text _ = inr _ |- _ => rewrite H; clear H
             end;
      split; reflexivity. }
  destruct Hunpack as [Hunpack Hfour]. split; [exact Hunpack |].
  intros tweet raw Hstats Hread.
  apply read_tweet_inr in Hread. destruct Hread as (stats' & Hs & Hu & _).
  rewrite Hstats in Hs. injection Hs as <-.
  rewrite Hunpack in Hu. injection Hu as <- <- <- <-.
  destruct counts as [| c0 [| c1 [| c2 [| c3 [| c4 counts]]]]];
    cbn in Hfour; try discriminate Hfour. reflexivity.
Qed.

Lemma missing_stats_default_to_zero_witness :
  unpack_stats (map render_node [node "tweet-stat" (lit " 7 ") [];
                                 node "tweet-stat" (lit "12") []])
  = inr (lit "7", lit "12", lit "0", lit "0").
Proof.
  apply (missing_stats_default_to_zero
           (map render_node [node "tweet-stat" (lit " 7 ") [];
                             node "tweet-stat" (lit "12") []])
           [lit " 7 "; lit "12"]).
  - cbn. lia.
  - reflexivity.
Defined.

Lemma read_tweet_requires (tweet : web_element) (cls : string) (e : exn) :
  In cls required_fields ->
  find_element tweet cls = inl e ->
  exists e', read_tweet tweet = inl e'.
Proof.
  intros Hin Hmiss.
  destruct (read_tweet tweet) as [e' | raw] eqn:Hread; [now exists e' |].
  exfalso. apply read_tweet_inr in Hread.
  destruct Hread as (stats & _ & _ & Hlink & Huser & Hname & Hdate & Hbody & _).
  unfold attribute, stripped_text in *.
  cbn in Hin.
  destruct Hin as [<- | [<- | [<- | [<- | [<- | []]]]]];
    rewrite Hmiss in *; discriminate.
Qed.

Lemma complete_record (raw : raw_post) (trans_content sentiment : str)
      (sentiment_score : Q) :
  complete (record raw trans_content sentiment sentiment_score) = true.
Proof. reflexivity. Qed.

(** C7.  When one of the five required lookups fails on a post of the
    page, [extract_tweets] does not raise, the post contributes no
    record and one ERROR record is logged for it, and the posts before
    and after it contribute exactly what they contribute on their own. *)
Theorem missing_required_field_skips_one_post
        (self : TwitterSentimentScraper)
        (before after : list web_element) (tweet : web_element)
        (cls : string) (e : exn) (s : state) :
  In cls required_fields ->
  find_element tweet cls = inl e ->
  timeline_items (current_page s) = inr (before ++ tweet :: after) ->
  let out := extract_tweets self s in
  let down := executor_shutdown s in
  fst out = inr tt
  /\ tweet_data (snd out)
     = tweet_data s ++ flat_map (posts_of self down) before
                    ++ flat_map (posts_of self down) after
  /\ exists e', read_tweet tweet = inl e'
                /\ posts_of self down tweet = []
                /\ calls_of self down tweet = [skipped e']
                /\ In (skipped e') (trace (snd out)).
Proof.
  intros Hin Hmiss Hitems out down. subst out.
  rewrite extract_tweets_eq. cbn [fst snd tweet_data trace].
  destruct (read_tweet_requires tweet cls e Hin Hmiss) as [e' Hread].
  assert (Hposts : posts_of self down tweet = [])
    by now rewrite posts_of_eq, Hread.
  assert (Hcalls : calls_of self down tweet = [skipped e'])
    by now rewrite calls_of_eq, Hread.
  split; [reflexivity |]. split.
  - unfold items. rewrite Hitems, flat_map_app. cbn [flat_map].
    fold down. now rewrite Hposts.
  - exists e'. repeat split; try assumption.
    apply in_or_app. right. unfold page_calls. rewrite Hitems.
    right. fold down.
    destruct (before ++ tweet :: after) as [| x l] eqn:Hl;
      [now destruct before |].
    rewrite <- Hl, flat_map_app. apply in_or_app. right.
    cbn [flat_map]. rewrite Hcalls. now left.
Qed.

Lemma missing_required_field_skips_one_post_witness :
  let page :=
    last_page [post "/a/1" (lit "one") [] true;
               post_without_username "/a/2" (lit "two");
               post "/a/3" (lit "three") [] true] in
  let s := set_page fresh page in
  tweet_data (snd (extract_tweets (scraper_up page) s))
  = posts_of (scraper_up page) false (post "/a/1" (lit "one") [] true)
    ++ posts_of (scraper_up page) false (post "/a/3" (lit "three") [] true).
Proof.
  intros page s.
  pose proof (missing_required_field_skips_one_post (scraper_up page)
                [post "/a/1" (lit "one") [] true]
                [post "/a/3" (lit "three") [] true]
                (post_without_username "/a/2" (lit "two"))
                "username" (no_such_element "username") s) as H.
  cbn zeta in H.
  destruct H as (_ & H & _).
  - cbn. tauto.
  - reflexivity.
  - reflexivity.
  - rewrite H. cbn [flat_map]. now rewrite !app_nil_r.
Defined.

(** *** The body of the inner [try] *)

Lemma tweet_body_eq (self : TwitterSentimentScraper) (tweet : web_element)
      (s : state) :
  tweet_body self tweet s
  = match read_tweet tweet with
    | inl e => (inl e, s)
    | inr raw =>
        let trans_content := normalized self (tweet_content raw) in
        let s1 :=
          set_trace s (trace s ++ translation_calls self (tweet_content raw)) in
        if executor_shutdown s
        then (inl (mkExn RuntimeError
                     (lit "cannot schedule new futures after shutdown") []),
              s1)
        else
          let s2 := set_trace s1 (trace s1 ++ [Submit trans_content]) in
          match analyze_sentiment_async self trans_content with
          | inl e => (inl e, s2)
          | inr (sentiment, sentiment_score) =>
              (inr tt,
               set_tweet_data s2
                 (tweet_data s2
                    ++ [record raw trans_content sentiment sentiment_score]))
          end
    end.
Proof.
  unfold tweet_body. unfold bind at 1. unfold lift at 1.
  destruct (read_tweet tweet) as [e | raw]; [reflexivity |].
  unfold bind at 1. rewrite translate_if_needed_run.
  unfold submit_and_wait, bind, gets, lift. cbn.
  destruct (executor_shutdown s); [reflexivity |]. cbn.
  destruct (analyze_sentiment_async self (normalized self (tweet_content raw)))
    as [e | [l sc]]; reflexivity.
Qed.

(** C10.  Processing one post never raises, and changes the accumulator
    in one of two ways only.  When the body of the inner [try] runs to
    its end, exactly one record is appended, and it is complete: the
    thirteen keys of the literal, in its order, none of them bound to
    [None] except possibly "tweet_url" and "image_url", which the page
    may leave without a value.  When any step of the body raises,
    [tweet_data] is what it was before the post. *)
Theorem accumulator_is_updated_atomically
        (self : TwitterSentimentScraper) (tweet : web_element) (s : state) :
  let out := process_tweet self tweet s in
  fst out = inr tt
  /\ match fst (tweet_body self tweet s) with
     | inr _ =>
         exists d, tweet_data (snd out) = tweet_data s ++ [d]
                   /\ complete d = true
                   /\ keys d = field_names
     | inl _ => tweet_data (snd out) = tweet_data s
     end.
Proof.
  cbn zeta. split.
  - now rewrite process_tweet_run.
  - unfold process_tweet, try_except. rewrite tweet_body_eq.
    destruct (read_tweet tweet) as [e | raw]; [reflexivity |].
    cbn zeta. destruct (executor_shutdown s); [reflexivity |].
    destruct (analyze_sentiment_async self
                (normalized self (tweet_content raw))) as [e | [l sc]];
      [reflexivity |].
    cbn. eexists. split; [reflexivity |]. split; reflexivity.
Qed.

(** C2, as stated, fails: the post the classifier fails on is left out
    of the result list, and the endpoint answers as it does for a page
    without posts; the one ERROR record of the request is the record the
    handler of line 144 writes for any failed step, here beside the one
    it writes for a post without user name. *)
Lemma classification_failure_is_told_like_any_skip :
  fst (analyze (scraper_up unscored_page) (lit "bad") fresh) = OK200 []
  /\ fst (analyze (scraper_up empty_page) (lit "bad") fresh) = OK200 []
  /\ filter is_error_log
            (trace (snd (analyze (scraper_up unscored_page) (lit "bad") fresh)))
     = [Log ERROR (lit "Error extracting tweet: model failure")]
  /\ filter is_error_log
            (trace (snd (analyze (scraper_up nameless_page) (lit "bad") fresh)))
     = [Log ERROR
            (lit "Error extracting tweet: Unable to locate element: .username")].
Proof. repeat split; vm_compute; reflexivity. Qed.

(** C2, amended.  When every field of a post is read and the classifier
    call fails on the text submitted for it, the exception is caught by
    the handler of lines 143-145: processing the post does not raise,
    the post contributes no record, so that it is left out of the result
    list and never included without sentiment, [tweet_data] is as it
    was, and the calls of the post end with the submission and the ERROR
    record the handler writes for any failed step, carrying the
    classifier's exception. *)
Theorem classification_failure_skips_the_post
        (self : TwitterSentimentScraper) (tweet : web_element)
        (raw : raw_post) (e : exn) (s : state) :
  read_tweet tweet = inr raw ->
  executor_shutdown s = false ->
  analyze_sentiment_async self (normalized self (tweet_content raw)) = inl e ->
  let out := process_tweet self tweet s in
  fst out = inr tt
  /\ posts_of self false tweet = []
  /\ tweet_data (snd out) = tweet_data s
  /\ trace (snd out)
     = trace s ++ translation_calls self (tweet_content raw)
               ++ [Submit (normalized self (tweet_content raw)); skipped e]
  /\ skipped e = Log ERROR (lit "Error extracting tweet: " ++ exn_str e).
Proof.
  intros Hread Hup Hcls. cbn zeta.
  rewrite process_tweet_run, Hup, posts_of_eq, calls_of_eq, Hread.
  cbn zeta. rewrite Hcls. cbn [fst snd tweet_data trace].
  split; [reflexivity |]. split; [reflexivity |].
  split; [apply app_nil_r |]. split; reflexivity.
Qed.

Lemma classification_failure_skips_the_post_witness :
  let out := process_tweet (scraper_up blank)
                           (post "/a/4" (lit "bad") ["3"%string] true) fresh in
  fst out = inr tt
  /\ posts_of (scraper_up blank) false
              (post "/a/4" (lit "bad") ["3"%string] true) = []
  /\ tweet_data (snd out) = []
  /\ trace (snd out)
     = [Submit (lit "bad");
        Log ERROR (lit "Error extracting tweet: model failure")].
Proof.
  destruct (classification_failure_skips_the_post (scraper_up blank)
              (post "/a/4" (lit "bad") ["3"%string] true)
              {| tweet_link := Some (lit "/a/4"); username := lit "@ada";
                 full_name := lit "Ada L."; tweet_date := lit "Nov 4";
                 tweet_content := lit "bad";
                 comments := lit "3"; retweets := lit "0"; quotes := lit "0";
                 likes := lit "0"; image_url := Some (lit "/pic/ada.jpg") |}
              (boom RuntimeError "model failure") fresh
              eq_refl eq_refl eq_refl) as (H1 & H2 & H3 & H4 & _).
  repeat split; assumption.
Defined.

(** *** Requests *)

Lemma visited_bound (n : nat) (p : page) :
  1 <= List.length (visited n p) <= S n.
Proof.
  revert p. induction n as [| n IH]; intros p; cbn; [lia |].
  destruct (show_more p) as [e | [e | next]]; cbn; try lia.
  specialize (IH next). lia.
Qed.

Lemma visited_without_control (n : nat) (p : page) (e : exn) :
  show_more p = inl e -> visited n p = [p].
Proof. intros H. destruct n; cbn; [reflexivity | now rewrite H]. Qed.

(** A request runs [extract_tweets] once per visited page: on the
    landing page, then after each of at most [num_pages] clicks, and
    not again once the "show-more" control is gone. *)
Lemma extractions_per_request (self : TwitterSentimentScraper) (query : str)
      (num_pages : Z) (s : state) :
  extractions (trace (snd (scrape_tweets self query num_pages s)))
  = extractions (trace s)
    + match landing self (driver_quit s) query with
      | Some p => List.length (visited (Z.to_nat num_pages) p)
      | None => 0
      end
  /\ extractions (trace (snd (scrape_tweets self query num_pages s)))
     <= extractions (trace s) + S (Z.to_nat num_pages).
Proof.
  destruct (scrape_tweets_run self query num_pages s)
    as (calls & p' & td' & Heq & Hc).
  rewrite Heq. cbn [snd trace]. rewrite extractions_app, Hc.
  split; [reflexivity |].
  destruct (landing self (driver_quit s) query) as [p |]; [| lia].
  pose proof (visited_bound (Z.to_nat num_pages) p). lia.
Qed.

Lemma load_fails_landing (self : TwitterSentimentScraper) (query : str)
      (gone : bool) :
  load_fails self query -> landing self gone query = None.
Proof.
  unfold landing. intros [[e H] | (p & e & H & Hw)]; rewrite H.
  - now destruct gone.
  - rewrite Hw. now destruct gone.
Qed.

(** C1.  With the default budget of two pages and a "show-more" control
    on the first two of three pages, a request extracts three pages: once
    at line 151, before the loop, and once in each of the two iterations
    of the loop of line 155.  The three posts of the three pages are
    returned. *)
Theorem budget_of_two_extracts_three_pages :
  let out := scrape_tweets (scraper_up three_pages) (lit "weather")
                           default_num_pages fresh in
  extractions (trace (snd out)) = 3
  /\ exists a b c, fst out = inr [a; b; c].
Proof.
  cbn zeta. split.
  - vm_compute. reflexivity.
  - do 3 eexists. vm_compute. reflexivity.
Qed.

(** C8.  When [driver.get] raises, or the wait for the timeline does,
    the request returns the empty list and does not raise; the endpoint
    answers 200 with no results; no page is extracted; the driver and the
    executor are as alive as before; and a later request is answered as
    it would have been without the failed one. *)
Theorem failed_load_returns_empty_list
        (self : TwitterSentimentScraper) (query : str) (num_pages : Z)
        (s : state) :
  load_fails self query ->
  let out := scrape_tweets self query num_pages s in
  fst out = inr []
  /\ fst (analyze self query s) = OK200 []
  /\ driver_quit (snd out) = driver_quit s
  /\ executor_shutdown (snd out) = executor_shutdown s
  /\ extractions (trace (snd out)) = extractions (trace s)
  /\ forall query' num_pages',
      fst (scrape_tweets self query' num_pages' (snd out))
      = fst (scrape_tweets self query' num_pages' s).
Proof.
  intros Hfail. cbn zeta.
  pose proof (load_fails_landing self query (driver_quit s) Hfail) as Hland.
  destruct (scrape_tweets_run self query num_pages s)
    as (calls & p' & td' & Heq & Hc).
  destruct (scrape_tweets_run self query default_num_pages s)
    as (calls2 & p2 & td2 & Heq2 & _).
  rewrite Hland in *. unfold analyze. rewrite Heq, Heq2.
  cbn [fst snd driver_quit executor_shutdown trace].
  repeat split.
  - rewrite extractions_app, Hc. lia.
  - intros query' num_pages'.
    destruct (scrape_tweets_run self query' num_pages' s)
      as (c3 & p3 & td3 & -> & _).
    match goal with
    | |- context [scrape_tweets self query' num_pages' ?s1] =>
        destruct (scrape_tweets_run self query' num_pages' s1)
          as (c4 & p4 & td4 & -> & _)
    end.
    reflexivity.
Qed.

Lemma failed_load_returns_empty_list_witness :
  fst (scrape_tweets scraper_offline (lit "weather") 2 fresh) = inr []
  /\ fst (analyze scraper_offline (lit "weather") fresh) = OK200 [].
Proof.
  assert (H : load_fails scraper_offline (lit "weather"))
    by (left; eexists; reflexivity).
  destruct (failed_load_returns_empty_list scraper_offline (lit "weather") 2
              fresh H) as (H1 & H2 & _).
  split; assumption.
Defined.

(** C9.  The list a request returns is the concatenation, over the pages
    visited in pagination order, of what the post elements of each page
    contribute, taken in DOM order; an element contributes at most one
    record.  Nothing is returned when the load fails. *)
Theorem posts_are_returned_in_page_then_dom_order
        (self : TwitterSentimentScraper) (query : str) (num_pages : Z)
        (s : state) :
  fst (scrape_tweets self query num_pages s)
  = inr match landing self (driver_quit s) query with
        | Some p =>
            flat_map
              (fun page =>
                 flat_map (posts_of self (executor_shutdown s)) (items page))
              (visited (Z.to_nat num_pages) p)
        | None => []
        end
  /\ forall down tweet, List.length (posts_of self down tweet) <= 1.
Proof.
  split.
  - destruct (scrape_tweets_run self query num_pages s)
      as (calls & p' & td' & -> & _).
    reflexivity.
  - intros down tweet. rewrite posts_of_eq.
    destruct (read_tweet tweet) as [e | raw]; cbn; [lia |].
    destruct down; cbn; [lia |].
    destruct (analyze_sentiment_async self
                (normalized self (tweet_content raw))) as [e | [l sc]];
      cbn; lia.
Qed.

Lemma in_page_then_dom (self : TwitterSentimentScraper) (down : bool)
      (pages : list page) (d : dict) :
  In d (page_then_dom self down pages) ->
  exists p tweet, In p pages /\ In tweet (items p)
                  /\ In d (posts_of self down tweet).
Proof.
  unfold page_then_dom. intros H.
  apply in_flat_map in H. destruct H as (p & Hp & H).
  apply in_flat_map in H. destruct H as (tweet & Ht & H).
  now exists p, tweet.
Qed.

(** C3, as stated, fails: with the translator down, a post whose body
    is "café" reaches the result list with that body under
    "trans_content", and that text is what was submitted to the
    classifier. *)
Lemma non_ascii_text_reaches_the_classifier :
  let out := scrape_tweets (scraper_down cafe_page) (lit "cafe") 2 fresh in
  isascii cafe = false
  /\ In (Submit cafe) (trace (snd out))
  /\ exists d, fst out = inr [d]
               /\ Py.get d "trans_content" = Some (Str cafe)
               /\ Py.get d "sentiment" = Some (Str (lit "positive")).
Proof.
  cbn zeta. split; [reflexivity |]. split.
  - vm_compute. tauto.
  - eexists. vm_compute. repeat split.
Qed.

(** C3, amended.  Every record of the returned list carries, under
    "sentiment" and "sentiment_score", the label and the score the
    classifier answered on the text found under "trans_content", so
    neither is [None].  That text is ASCII whenever the body of the post
    is, and whenever the translator answered with ASCII text; when the
    translator raises on a body that is not ASCII, it is that body. *)
Theorem every_returned_post_is_classified
        (self : TwitterSentimentScraper) (query : str) (num_pages : Z)
        (s : state) (l : list dict) (d : dict) :
  fst (scrape_tweets self query num_pages s) = inr l ->
  In d l ->
  exists content trans sentiment score,
    Py.get d "tweet_content" = Some (Str content)
    /\ Py.get d "trans_content" = Some (Str trans)
    /\ Py.get d "sentiment" = Some (Str sentiment)
    /\ Py.get d "sentiment_score" = Some (Float score)
    /\ analyze_sentiment_async self trans = inr (sentiment, score)
    /\ (isascii content = true -> trans = content /\ isascii trans = true)
    /\ (forall t, isascii content = false ->
                  translator self content = inr t ->
                  trans = t /\ isascii trans = isascii t)
    /\ (forall e, isascii content = false ->
                  translator self content = inl e ->
                  trans = content /\ isascii trans = false).
Proof.
  intros Hrun Hin.
  destruct (scrape_tweets_run self query num_pages s)
    as (calls & p' & td' & Heq & _).
  rewrite Heq in Hrun. cbn [fst] in Hrun. injection Hrun as <-.
  destruct (landing self (driver_quit s) query) as [p |]; [| destruct Hin].
  apply in_page_then_dom in Hin. destruct Hin as (pg & tweet & _ & _ & Hd).
  apply in_posts_of in Hd.
  destruct Hd as (raw & label & score & _ & _ & Hcls & ->).
  exists (tweet_content raw), (normalized self (tweet_content raw)),
    label, score.
  repeat split; try reflexivity; try assumption.
  - now apply normalized_ascii.
  - rewrite normalized_ascii; assumption.
  - unfold normalized. now rewrite H, H0.
  - unfold normalized. now rewrite H, H0.
  - now apply normalized_fallback with e.
  - rewrite (normalized_fallback _ _ _ H0). assumption.
Qed.

Lemma every_returned_post_is_classified_witness :
  exists content trans sentiment score,
    Py.get (record {| tweet_link := Some (lit "/a/9"); username := lit "@ada";
                      full_name := lit "Ada L."; tweet_date := lit "Nov 4";
                      tweet_content := cafe;
                      comments := lit "0"; retweets := lit "0";
                      quotes := lit "0"; likes := lit "0";
                      image_url := Some (lit "/pic/ada.jpg") |}
                   (lit "coffee") (lit "positive") (9 # 10)%Q)
           "tweet_content" = Some (Str content)
    /\ trans = lit "coffee"
    /\ sentiment = lit "positive"
    /\ analyze_sentiment_async (scraper_up cafe_page) trans
       = inr (sentiment, score).
Proof.
  destruct (every_returned_post_is_classified (scraper_up cafe_page)
              (lit "cafe") 2 fresh
              [record {| tweet_link := Some (lit "/a/9");
                         username := lit "@ada";
                         full_name := lit "Ada L."; tweet_date := lit "Nov 4";
                         tweet_content := cafe;
                         comments := lit "0"; retweets := lit "0";
                         quotes := lit "0"; likes := lit "0";
                         image_url := Some (lit "/pic/ada.jpg") |}
                      (lit "coffee") (lit "positive") (9 # 10)%Q]
              _ eq_refl (or_introl eq_refl))
    as (content & trans & sentiment & score & H1 & H2 & H3 & H4 & H5 & _).
  exists content, trans, sentiment, score.
  cbn in H2, H3. injection H2 as <-. injection H3 as <-.
  repeat split; assumption.
Defined.

(** ** Further properties of the pipeline *)

(** *** The trace of a request *)

Lemma paginate_handler_eq (e : exn) (s : state) :
  paginate_handler e s = (inr false, set_trace s (trace s ++ break_calls e)).
Proof.
  unfold paginate_handler, break_calls.
  destruct (isinstance e NoSuchElementException); reflexivity.
Qed.

Lemma last_nonempty {A} (l : list A) (a d d' : A) :
  last (a :: l) d = last (a :: l) d'.
Proof.
  revert a. induction l as [| b l IH]; intros a; [reflexivity |].
  cbn [last] in *. apply IH.
Qed.

Lemma last_visited (n : nat) (p next d : page) :
  last (p :: visited n next) d = last (visited n next) next.
Proof.
  rewrite (visited_head n next). cbn [last]. apply last_nonempty.
Qed.

Lemma paginate_eq (self : TwitterSentimentScraper) (n : nat) (s : state) :
  paginate self n s
  = (inr tt,
     mkState (last (visited n (current_page s)) (current_page s))
             (driver_quit s) (executor_shutdown s)
             (tweet_data s
                ++ page_then_dom self (executor_shutdown s)
                     (tl (visited n (current_page s))))
             (trace s
                ++ pagination_calls self (executor_shutdown s) n
                     (current_page s))).
Proof.
  revert s. induction n as [| n IH]; intros [p dq down td tr].
  - cbn. now rewrite !app_nil_r.
  - cbn [paginate visited tl current_page driver_quit executor_shutdown
           tweet_data trace pagination_calls].
    unfold bind at 1. unfold paginate_once, try_except.
    unfold bind at 1. unfold click_show_more.
    unfold bind, tell, gets, lift, navigate. cbn -[last page_calls].
    destruct (show_more p) as [e | [e | next]]; cbn -[last page_calls].
    + rewrite paginate_handler_eq. cbn. unfold ret, set_trace; cbn.
      now rewrite app_nil_r, <- !app_assoc.
    + rewrite paginate_handler_eq. cbn. unfold ret, set_trace; cbn.
      now rewrite app_nil_r, <- !app_assoc.
    + unfold set_trace, set_page; cbn -[last page_calls].
      rewrite extract_tweets_eq. cbn -[last page_calls].
      rewrite IH. cbn -[last page_calls].
      rewrite page_then_dom_visited, last_visited.
      f_equal. f_equal; [list_eq |].
      rewrite <- !app_assoc. reflexivity.
Qed.

Lemma load_handler_eq (url : str) (e : exn) (s : state) :
  load_handler url e s
  = (inr false, set_trace s (trace s ++ load_failure_calls url e)).
Proof.
  unfold load_handler, load_failure_calls.
  destruct (isinstance e TimeoutException);
    [| destruct (isinstance e WebDriverException)]; reflexivity.
Qed.

Lemma open_search_eq (self : TwitterSentimentScraper) (query : str)
      (s : state) :
  open_search self (url_of query) s
  = (inr match landing self (driver_quit s) query with
         | Some _ => true
         | None => false
         end,
     mkState (if driver_quit s then current_page s
              else match serve self (url_of query) with
                   | inr p => p
                   | inl _ => current_page s
                   end)
             (driver_quit s) (executor_shutdown s) (tweet_data s)
             (trace s ++ load_calls self (driver_quit s) (url_of query))).
Proof.
  destruct s as [p0 dq down td tr].
  unfold open_search, landing, load_calls, try_except, driver_get,
    wait_until_timeline.
  unfold bind, tell, gets, lift, navigate.
  cbn -[load_handler load_failure_calls].
  destruct dq; cbn -[load_handler load_failure_calls].
  - rewrite load_handler_eq. unfold set_trace; cbn -[load_failure_calls].
    now rewrite <- !app_assoc.
  - destruct (serve self (url_of query)) as [e | p];
      cbn -[load_handler load_failure_calls].
    + rewrite load_handler_eq. unfold set_trace; cbn -[load_failure_calls].
      now rewrite <- !app_assoc.
    + destruct (wait_timeline p) as [e |];
        cbn -[load_handler load_failure_calls].
      * rewrite load_handler_eq. unfold set_trace; cbn -[load_failure_calls].
        now rewrite <- !app_assoc.
      * unfold ret, set_trace; cbn. now rewrite <- !app_assoc.
Qed.

Lemma scrape_tweets_trace (self : TwitterSentimentScraper) (query : str)
      (num_pages : Z) (s : state) :
  trace (snd (scrape_tweets self query num_pages s))
  = trace s
      ++ request_calls self (driver_quit s) (executor_shutdown s)
           query num_pages.
Proof.
  unfold scrape_tweets, request_calls. unfold bind at 1. rewrite logger_info.
  unfold bind at 1. rewrite open_search_eq.
  cbn [set_trace current_page driver_quit executor_shutdown tweet_data trace].
  destruct (landing self (driver_quit s) query) as [p |] eqn:Hland.
  - assert (Hp : (if driver_quit s then current_page s
                  else match serve self (url_of query) with
                       | inr p => p
                       | inl _ => current_page s
                       end) = p).
    { unfold landing in Hland. destruct (driver_quit s); [discriminate |].
      destruct (serve self (url_of query)) as [e | q]; [discriminate |].
      destruct (wait_timeline q); [discriminate | now injection Hland]. }
    rewrite Hp. clear Hp.
    unfold bind at 1. unfold new_tweet_data, set_tweet_data.
    cbn [current_page driver_quit executor_shutdown tweet_data trace].
    unfold bind at 1. rewrite extract_tweets_eq.
    cbn [current_page driver_quit executor_shutdown tweet_data trace app].
    unfold bind at 1. rewrite logger_info.
    cbn [set_trace current_page driver_quit executor_shutdown tweet_data
           trace].
    unfold bind at 1. rewrite paginate_eq.
    cbn [current_page driver_quit executor_shutdown tweet_data trace].
    unfold bind, gets. rewrite logger_info. unfold ret.
    cbn [snd set_trace current_page driver_quit executor_shutdown tweet_data
           trace].
    rewrite page_then_dom_visited.
    rewrite <- !app_assoc. reflexivity.
  - unfold ret. cbn [snd trace]. now rewrite app_nil_r, <- !app_assoc.
Qed.

Lemma count_if_app (f : event -> bool) (a b : list event) :
  count_if f (a ++ b) = count_if f a + count_if f b.
Proof. unfold count_if. now rewrite filter_app, length_app. Qed.

Lemma count_if_cons (f : event -> bool) (ev : event) (l : list event) :
  count_if f (ev :: l) = (if f ev then 1 else 0) + count_if f l.
Proof. unfold count_if. cbn. now destruct (f ev). Qed.

Section BrowserEvents.

(** [f] singles out events of the browser. *)
Variable f : event -> bool.
Hypothesis f_browser : forall ev, is_browser ev = false -> f ev = false.

Lemma filter_translation_calls (self : TwitterSentimentScraper) (c : str) :
  filter f (translation_calls self c) = [].
Proof.
  unfold translation_calls. destruct (isascii c); [reflexivity |].
  cbn. rewrite f_browser by reflexivity.
  destruct (translator self c); cbn; [| reflexivity].
  now rewrite f_browser.
Qed.

Lemma filter_calls_of (self : TwitterSentimentScraper) (down : bool)
      (t : web_element) :
  filter f (calls_of self down t) = [].
Proof.
  rewrite calls_of_eq. unfold skipped.
  destruct (read_tweet t) as [e | raw]; cbn zeta.
  - cbn. now rewrite f_browser.
  - rewrite filter_app, filter_translation_calls.
    destruct down; cbn.
    + now rewrite f_browser.
    + rewrite f_browser by reflexivity.
      destruct (analyze_sentiment_async self _); cbn; [| reflexivity].
      now rewrite f_browser.
Qed.

Lemma filter_flat_map_calls_of (self : TwitterSentimentScraper) (down : bool)
      (l : list web_element) :
  filter f (flat_map (calls_of self down) l) = [].
Proof.
  induction l as [| t l IH]; [reflexivity |].
  cbn [flat_map]. now rewrite filter_app, filter_calls_of, IH.
Qed.

Lemma filter_page_calls (self : TwitterSentimentScraper) (down : bool)
      (p : page) :
  filter f (page_calls self down p) = filter f [FindTimelineItems].
Proof.
  unfold page_calls.
  change (FindTimelineItems :: ?x) with ([FindTimelineItems] ++ x).
  rewrite filter_app.
  destruct (timeline_items p) as [e | [| t l]].
  - cbn. rewrite (f_browser (Log _ _)) by reflexivity.
    now rewrite app_nil_r.
  - cbn. rewrite (f_browser (Log _ _)) by reflexivity.
    now rewrite app_nil_r.
  - now rewrite filter_flat_map_calls_of, app_nil_r.
Qed.

Lemma filter_break_calls (e : exn) : filter f (break_calls e) = [].
Proof.
  unfold break_calls. destruct (isinstance e NoSuchElementException);
    cbn; now rewrite f_browser.
Qed.

Lemma filter_load_failure_calls (url : str) (e : exn) :
  filter f (load_failure_calls url e) = [].
Proof.
  unfold load_failure_calls.
  destruct (isinstance e TimeoutException);
    [| destruct (isinstance e WebDriverException)];
    cbn; now rewrite f_browser.
Qed.

Lemma count_if_page_calls (self : TwitterSentimentScraper) (down : bool)
      (p : page) :
  count_if f (page_calls self down p) = if f FindTimelineItems then 1 else 0.
Proof.
  unfold count_if. rewrite filter_page_calls. cbn.
  now destruct (f FindTimelineItems).
Qed.

Lemma count_if_break_calls (e : exn) : count_if f (break_calls e) = 0.
Proof. unfold count_if. now rewrite filter_break_calls. Qed.

Lemma count_if_load_failure_calls (url : str) (e : exn) :
  count_if f (load_failure_calls url e) = 0.
Proof. unfold count_if. now rewrite filter_load_failure_calls. Qed.

End BrowserEvents.

Lemma is_click_browser (ev : event) : is_browser ev = false -> is_click ev = false.
Proof. now destruct ev. Qed.

Lemma is_sleep_browser (ev : event) : is_browser ev = false -> is_sleep ev = false.
Proof. now destruct ev. Qed.

Lemma is_get_browser (ev : event) : is_browser ev = false -> is_get ev = false.
Proof. now destruct ev. Qed.

Lemma is_find_show_more_browser (ev : event) :
  is_browser ev = false -> is_find_show_more ev = false.
Proof. now destruct ev. Qed.

Lemma pagination_counts (self : TwitterSentimentScraper) (down : bool)
      (n : nat) (p : page) :
  let calls := pagination_calls self down n p in
  count_if is_sleep calls = List.length (tl (visited n p))
  /\ count_if is_sleep calls <= count_if is_click calls
  /\ count_if is_click calls <= count_if is_find_show_more calls
  /\ count_if is_find_show_more calls <= n
  /\ filter is_get calls = []
  /\ forall k, In (Sleep k) calls -> k = 2.
Proof.
  cbn zeta. revert p. induction n as [| n IH]; intros p.
  - cbn. repeat split; lia.
  - cbn [pagination_calls visited tl].
    destruct (show_more p) as [e | [e | next]].
    + rewrite !count_if_cons.
      rewrite (count_if_break_calls _ is_sleep_browser),
        (count_if_break_calls _ is_click_browser),
        (count_if_break_calls _ is_find_show_more_browser).
      cbn. rewrite (filter_break_calls _ is_get_browser).
      repeat split; try lia.
      intros k [H | H]; [discriminate |].
      unfold break_calls in H.
      destruct (isinstance e NoSuchElementException);
        destruct H as [H | []]; discriminate.
    + rewrite !count_if_cons.
      rewrite (count_if_break_calls _ is_sleep_browser),
        (count_if_break_calls _ is_click_browser),
        (count_if_break_calls _ is_find_show_more_browser).
      cbn. rewrite (filter_break_calls _ is_get_browser).
      repeat split; try lia.
      intros k [H | [H | H]]; try discriminate.
      unfold break_calls in H.
      destruct (isinstance e NoSuchElementException);
        destruct H as [H | []]; discriminate.
    + destruct (IH next) as (Hs & Hsc & Hcf & Hf & Hg & Hk).
      rewrite !count_if_cons, !count_if_app.
      rewrite (count_if_page_calls _ is_sleep_browser),
        (count_if_page_calls _ is_click_browser),
        (count_if_page_calls _ is_find_show_more_browser).
      cbn [is_sleep is_click is_find_show_more Nat.add].
      rewrite length_visited.
      repeat split; try lia.
      * cbn [filter is_get]. rewrite filter_app.
        rewrite (filter_page_calls _ is_get_browser). exact Hg.
      * intros k [H | [H | [H | H]]]; try discriminate.
        -- now injection H.
        -- apply in_app_or in H. destruct H as [H | H]; [| now apply Hk].
           exfalso.
           assert (Hin : In (Sleep k) (filter is_sleep
                                          (page_calls self down next)))
             by (apply filter_In; now split).
           rewrite (filter_page_calls _ is_sleep_browser) in Hin.
           destruct Hin.
Qed.

Section PaginationEvents.

(** [f] singles out events of the pagination loop. *)
Variable f : event -> bool.
Hypothesis f_browser : forall ev, is_browser ev = false -> f ev = false.
Hypothesis f_get : forall url, f (Get url) = false.
Hypothesis f_wait : f WaitTimeline = false.
Hypothesis f_find : f FindTimelineItems = false.

Lemma filter_load_calls (self : TwitterSentimentScraper) (gone : bool)
      (url : str) :
  filter f (load_calls self gone url) = [].
Proof.
  unfold load_calls. cbn [filter].
  rewrite (f_browser (Log _ _)) by reflexivity. rewrite f_get.
  destruct gone; [now apply filter_load_failure_calls |].
  destruct (serve self url) as [e | p];
    [now apply filter_load_failure_calls |].
  cbn [filter]. rewrite f_wait.
  destruct (wait_timeline p); [now apply filter_load_failure_calls |].
  cbn. now rewrite f_browser.
Qed.

Lemma filter_request_calls (self : TwitterSentimentScraper)
      (gone down : bool) (query : str) (num_pages : Z) :
  filter f (request_calls self gone down query num_pages)
  = match landing self gone query with
    | Some p => filter f (pagination_calls self down (Z.to_nat num_pages) p)
    | None => []
    end.
Proof.
  unfold request_calls. cbn [filter].
  rewrite (f_browser (Log _ _)) by reflexivity.
  rewrite filter_app, filter_load_calls.
  destruct (landing self gone query) as [p |]; [| reflexivity].
  rewrite filter_app, (filter_page_calls _ f_browser). cbn [filter app].
  rewrite f_find. cbn [app filter].
  rewrite (f_browser (Log _ _)) by reflexivity.
  rewrite filter_app. cbn [filter].
  rewrite (f_browser (Log _ _)) by reflexivity.
  now rewrite app_nil_r.
Qed.

End PaginationEvents.

Lemma extractions_request_calls (self : TwitterSentimentScraper)
      (gone down : bool) (query : str) (num_pages : Z) :
  extractions (request_calls self gone down query num_pages)
  = match landing self gone query with
    | Some p => List.length (visited (Z.to_nat num_pages) p)
    | None => 0
    end.
Proof.
  pose proof (extractions_per_request self query num_pages
                (mkState blank gone down [] [])) as [H _].
  rewrite scrape_tweets_trace in H. cbn in H. exact H.
Qed.

(** X1.  Within one request the "show-more" control is clicked at most
    [num_pages] times; every pause is the pause of two seconds of line
    159, there is at most one per click, and every page extracted after
    the landing page comes after exactly one such pause. *)
Theorem clicks_are_bounded_by_the_budget
        (self : TwitterSentimentScraper) (query : str) (num_pages : Z)
        (s : state) :
  exists calls,
    trace (snd (scrape_tweets self query num_pages s)) = trace s ++ calls
    /\ count_if is_click calls <= Z.to_nat num_pages
    /\ count_if is_sleep calls <= count_if is_click calls
    /\ (forall seconds, In (Sleep seconds) calls -> seconds = 2)
    /\ extractions calls
       = match landing self (driver_quit s) query with
         | Some _ => S (count_if is_sleep calls)
         | None => 0
         end.
Proof.
  eexists. split; [apply scrape_tweets_trace |].
  set (gone := driver_quit s). set (down := executor_shutdown s).
  unfold count_if.
  rewrite (filter_request_calls is_click is_click_browser),
    (filter_request_calls is_sleep is_sleep_browser) by reflexivity.
  rewrite extractions_request_calls.
  assert (Hsleep : forall k,
             In (Sleep k) (request_calls self gone down query num_pages) ->
             In (Sleep k)
                (filter is_sleep
                        (request_calls self gone down query num_pages)))
    by (intros k H; apply filter_In; now split).
  rewrite (filter_request_calls is_sleep is_sleep_browser) in Hsleep
    by reflexivity.
  destruct (landing self gone query) as [p |].
  - destruct (pagination_counts self down (Z.to_nat num_pages) p)
      as (Hs & Hsc & Hcf & Hf & _ & Hk).
    unfold count_if in *. repeat split; try lia.
    + intros k H. apply Hsleep in H. apply filter_In in H. now apply Hk.
    + rewrite length_visited. lia.
  - cbn. repeat split; try lia. intros k H. now apply Hsleep in H.
Qed.

(** X2.  A request asks the browser for exactly one URL, the search URL
    of the mirror followed by the query as it was given (the query is
    not escaped), whatever happens afterwards. *)
Theorem one_navigation_per_request
        (self : TwitterSentimentScraper) (query : str) (num_pages : Z)
        (s : state) :
  filter is_get (trace (snd (scrape_tweets self query num_pages s)))
  = filter is_get (trace s)
      ++ [Get (lit "https://nitter.net/search?f=tweets&q=" ++ query)].
Proof.
  rewrite scrape_tweets_trace, filter_app. f_equal.
  unfold request_calls, load_calls. cbn [filter is_get app].
  rewrite filter_app.
  assert (Hload :
            filter is_get
              (if driver_quit s
               then load_failure_calls (url_of query)
                      (mkExn Exception (lit "Connection refused") [])
               else match serve self (url_of query) with
                    | inl e => load_failure_calls (url_of query) e
                    | inr p =>
                        WaitTimeline
                        :: match wait_timeline p with
                           | Some e => load_failure_calls (url_of query) e
                           | None =>
                               [Log INFO
                                  (lit "Successfully accessed and found tweets on URL: "
                                       ++ url_of query)]
                           end
                    end) = []).
  { destruct (driver_quit s);
      [apply (filter_load_failure_calls _ is_get_browser) |].
    destruct (serve self (url_of query)) as [e | p];
      [apply (filter_load_failure_calls _ is_get_browser) |].
    cbn [filter is_get].
    destruct (wait_timeline p);
      [apply (filter_load_failure_calls _ is_get_browser) | reflexivity]. }
  rewrite Hload. cbn [app]. unfold url_of. f_equal.
  destruct (landing self (driver_quit s) query) as [p |]; [| reflexivity].
  rewrite filter_app, (filter_page_calls _ is_get_browser).
  cbn [filter is_get app]. rewrite filter_app.
  destruct (pagination_counts self (executor_shutdown s)
              (Z.to_nat num_pages) p) as (_ & _ & _ & _ & Hg & _).
  rewrite Hg. reflexivity.
Qed.

(** *** Requests as a whole *)

Lemma scrape_tweets_result (self : TwitterSentimentScraper) (query : str)
      (num_pages : Z) (s : state) :
  fst (scrape_tweets self query num_pages s)
  = inr match landing self (driver_quit s) query with
        | Some p =>
            page_then_dom self (executor_shutdown s)
                          (visited (Z.to_nat num_pages) p)
        | None => []
        end.
Proof.
  destruct (scrape_tweets_run self query num_pages s)
    as (calls & p' & td' & -> & _).
  reflexivity.
Qed.

Lemma scrape_tweets_flags (self : TwitterSentimentScraper) (query : str)
      (num_pages : Z) (s : state) :
  driver_quit (snd (scrape_tweets self query num_pages s)) = driver_quit s
  /\ executor_shutdown (snd (scrape_tweets self query num_pages s))
     = executor_shutdown s.
Proof.
  destruct (scrape_tweets_run self query num_pages s)
    as (calls & p' & td' & -> & _).
  split; reflexivity.
Qed.

(** X3.  With a page budget of zero or less the loop of line 155 has no
    iteration: the "show-more" control is not even looked for, and the
    request returns the posts of the landing page alone. *)
Theorem non_positive_budget_reads_the_landing_page_only
        (self : TwitterSentimentScraper) (query : str) (num_pages : Z)
        (s : state) :
  (num_pages <= 0)%Z ->
  let out := scrape_tweets self query num_pages s in
  fst out
  = inr match landing self (driver_quit s) query with
        | Some p => flat_map (posts_of self (executor_shutdown s)) (items p)
        | None => []
        end
  /\ filter is_find_show_more (trace (snd out))
     = filter is_find_show_more (trace s)
  /\ filter is_click (trace (snd out)) = filter is_click (trace s).
Proof.
  intros Hn. cbn zeta.
  assert (Hz : Z.to_nat num_pages = 0) by lia.
  rewrite scrape_tweets_result, scrape_tweets_trace, !filter_app.
  rewrite (filter_request_calls is_find_show_more is_find_show_more_browser),
    (filter_request_calls is_click is_click_browser) by reflexivity.
  rewrite Hz.
  destruct (landing self (driver_quit s) query) as [p |];
    cbn; rewrite !app_nil_r; repeat split; reflexivity.
Qed.

Lemma non_positive_budget_reads_the_landing_page_only_witness :
  exists a,
    fst (scrape_tweets (scraper_up three_pages) (lit "weather") (-1) fresh)
    = inr [a].
Proof.
  destruct (non_positive_budget_reads_the_landing_page_only
              (scraper_up three_pages) (lit "weather") (-1) fresh)
    as (H & _); [lia |].
  eexists. rewrite H. vm_compute. reflexivity.
Defined.

(** X4.  [scrape_tweets] returns a list whatever the site and the two
    backends do: no exception leaves it.  The endpoint therefore answers
    200, with the results of a request for the default budget, and never
    takes the path of line 226. *)
Theorem a_request_never_raises
        (self : TwitterSentimentScraper) (query : str) (num_pages : Z)
        (s : state) :
  (exists results, fst (scrape_tweets self query num_pages s) = inr results)
  /\ exists results,
      fst (scrape_tweets self query 2 s) = inr results
      /\ analyze self query s
         = (OK200 results, snd (scrape_tweets self query 2 s)).
Proof.
  split.
  - eexists. apply scrape_tweets_result.
  - unfold analyze, default_num_pages.
    pose proof (scrape_tweets_result self query 2 s) as H.
    destruct (scrape_tweets self query 2 s) as [[e | l] s'];
      [discriminate H |].
    exists l. split; reflexivity.
Qed.

(** X5.  A request starts from an empty list and from its own page
    load: what it returns does not depend on the requests served before
    it on the same session. *)
Theorem requests_do_not_share_results
        (self : TwitterSentimentScraper) (query1 query2 : str)
        (pages1 pages2 : Z) (s : state) :
  fst (scrape_tweets self query2 pages2
                     (snd (scrape_tweets self query1 pages1 s)))
  = fst (scrape_tweets self query2 pages2 s)
  /\ forall other,
      driver_quit other = driver_quit s ->
      executor_shutdown other = executor_shutdown s ->
      fst (scrape_tweets self query2 pages2 other)
      = fst (scrape_tweets self query2 pages2 s).
Proof.
  split.
  - rewrite !scrape_tweets_result.
    destruct (scrape_tweets_flags self query1 pages1 s) as [-> ->].
    reflexivity.
  - intros other Hq He. rewrite !scrape_tweets_result, Hq, He. reflexivity.
Qed.

Lemma not_a_click_failure (ev : event) :
  is_error_log ev = false -> is_click_failure ev = false.
Proof. destruct ev as [[] msg | | | | | | | | | |]; now cbn. Qed.

Lemma click_failures_of_a_post (self : TwitterSentimentScraper) (down : bool)
      (t : web_element) :
  count_if is_click_failure (calls_of self down t) = 0.
Proof.
  rewrite calls_of_eq. unfold skipped.
  destruct (read_tweet t) as [e | raw]; [reflexivity |].
  cbn zeta. rewrite count_if_app.
  assert (Htr : count_if is_click_failure
                         (translation_calls self (tweet_content raw)) = 0).
  { unfold translation_calls.
    destruct (isascii (tweet_content raw)); [reflexivity |].
    destruct (translator self (tweet_content raw)); reflexivity. }
  rewrite Htr. destruct down; [reflexivity |].
  destruct (analyze_sentiment_async self _); reflexivity.
Qed.

Lemma click_failures_of_a_page (self : TwitterSentimentScraper) (down : bool)
      (p : page) :
  count_if is_click_failure (page_calls self down p) = 0.
Proof.
  unfold page_calls. rewrite count_if_cons. cbn [is_click_failure Nat.add].
  destruct (timeline_items p) as [e | [| t l]]; try reflexivity.
  induction (t :: l) as [| t' l' IH]; [reflexivity |].
  cbn [flat_map]. now rewrite count_if_app, click_failures_of_a_post, IH.
Qed.

Lemma click_failures_of_a_load (self : TwitterSentimentScraper) (gone : bool)
      (url : str) :
  count_if is_click_failure (load_calls self gone url) = 0.
Proof.
  assert (Hfail : forall e,
             count_if is_click_failure (load_failure_calls url e) = 0).
  { intros e. unfold load_failure_calls.
    destruct (isinstance e TimeoutException);
      [| destruct (isinstance e WebDriverException)]; reflexivity. }
  unfold load_calls. rewrite !count_if_cons. cbn [is_click_failure Nat.add].
  destruct gone; [apply Hfail |].
  destruct (serve self url) as [e | p]; [apply Hfail |].
  rewrite count_if_cons. cbn [is_click_failure Nat.add].
  destruct (wait_timeline p); [apply Hfail | reflexivity].
Qed.

(** The loop of line 155 when it ends on a click that raises: [n]
    iterations are allowed, fewer than [n] clicks went through, and the
    click on the last page reached raises [e]. *)
Lemma pagination_ended_by_a_failed_click (self : TwitterSentimentScraper)
      (down : bool) (n : nat) (p : page) (e : exn) :
  List.length (visited n p) <= n ->
  show_more (last (visited n p) p) = inr (inl e) ->
  isinstance e NoSuchElementException = false ->
  (exists before,
      pagination_calls self down n p
      = before
          ++ [FindShowMore; Click;
              Log ERROR (lit "Error clicking 'Load More' button: "
                             ++ exn_str e)])
  /\ count_if is_click (pagination_calls self down n p)
     = List.length (visited n p)
  /\ count_if is_click_failure (pagination_calls self down n p) = 1.
Proof.
  revert p. induction n as [| n IH]; intros p Hlen Hlast Hcls.
  - cbn in Hlen. lia.
  - cbn [pagination_calls visited] in *.
    destruct (show_more p) as [e0 | [e0 | next]] eqn:Hmore.
    + cbn in Hlast. rewrite Hmore in Hlast. discriminate.
    + cbn in Hlast. rewrite Hmore in Hlast. injection Hlast as ->.
      unfold break_calls. rewrite Hcls. split; [| split].
      * now exists [].
      * reflexivity.
      * rewrite !count_if_cons. cbn [is_click_failure Nat.add].
        unfold count_if. cbn [filter is_click_failure].
        assert (Hpre : forall x,
                   starts_with (lit "Error clicking 'Load More' button: ")
                               (lit "Error clicking 'Load More' button: "
                                    ++ x) = true)
          by (intros x; reflexivity).
        now rewrite Hpre.
    + rewrite last_visited in Hlast.
      cbn [List.length] in Hlen.
      destruct (IH next) as ((before & Heq) & Hclicks & Hfail);
        [lia | exact Hlast | exact Hcls |].
      split; [| split].
      * exists (FindShowMore :: Click :: Sleep 2
                  :: page_calls self down next ++ before).
        rewrite Heq. cbn [app]. now rewrite <- app_assoc.
      * rewrite !count_if_cons, count_if_app.
        rewrite (count_if_page_calls _ is_click_browser), Hclicks.
        reflexivity.
      * rewrite !count_if_cons, count_if_app.
        rewrite click_failures_of_a_page, Hfail. reflexivity.
Qed.

(** X6.  A request whose pagination ends on a click that raises
    anything but [NoSuchElementException], on the landing page or on any
    later page: the posts of every page visited so far are returned; the
    request ends with the lookup of the control, the click, the ERROR
    record of line 165 and the completion record; and with [k] pages
    visited there were [k] clicks, [k - 1] pauses, [k] extractions and
    one click-failure record. *)
Theorem failed_click_ends_pagination
        (self : TwitterSentimentScraper) (query : str) (num_pages : Z)
        (s : state) (p : page) (e : exn) :
  landing self (driver_quit s) query = Some p ->
  let pages := visited (Z.to_nat num_pages) p in
  List.length pages <= Z.to_nat num_pages ->
  show_more (last pages p) = inr (inl e) ->
  isinstance e NoSuchElementException = false ->
  let out := scrape_tweets self query num_pages s in
  let results := page_then_dom self (executor_shutdown s) pages in
  fst out = inr results
  /\ exists calls before,
      trace (snd out) = trace s ++ calls
      /\ calls
         = before
             ++ [FindShowMore; Click;
                 Log ERROR (lit "Error clicking 'Load More' button: "
                                ++ exn_str e);
                 Log INFO (lit "Twitter data scraping completed. "
                               ++ str_of_nat (List.length results)
                               ++ lit " tweets extracted.")]
      /\ count_if is_click calls = List.length pages
      /\ S (count_if is_sleep calls) = List.length pages
      /\ extractions calls = List.length pages
      /\ count_if is_click_failure calls = 1.
Proof.
  intros Hland pages Hlen Hlast Hcls. cbn zeta.
  rewrite scrape_tweets_result, Hland.
  split; [reflexivity |].
  destruct (pagination_ended_by_a_failed_click self (executor_shutdown s)
              (Z.to_nat num_pages) p e Hlen Hlast Hcls)
    as ((before & Heq) & Hclicks & Hfail).
  destruct (pagination_counts self (executor_shutdown s)
              (Z.to_nat num_pages) p) as (Hsleeps & _).
  eexists. eexists. split; [apply scrape_tweets_trace |].
  unfold count_if at 1 2.
  rewrite (filter_request_calls is_click is_click_browser),
    (filter_request_calls is_sleep is_sleep_browser) by reflexivity.
  rewrite extractions_request_calls, Hland.
  fold (count_if is_click
          (pagination_calls self (executor_shutdown s)
                            (Z.to_nat num_pages) p)).
  fold (count_if is_sleep
          (pagination_calls self (executor_shutdown s)
                            (Z.to_nat num_pages) p)).
  rewrite Hclicks, Hsleeps. fold pages.
  split; [| split; [reflexivity | split; [| split; [reflexivity |]]]].
  - unfold request_calls. rewrite Hland, Heq. fold pages.
    instantiate (1 := Log INFO (lit "Starting scrape for query: " ++ query
                                    ++ lit ", Number of pages: "
                                    ++ str_of_int num_pages)
                      :: load_calls self (driver_quit s) (url_of query)
                      ++ page_calls self (executor_shutdown s) p
                      ++ Log INFO (lit "Twitter data scraping started...")
                      :: before).
    cbn [app]. f_equal. rewrite <- !app_assoc. f_equal.
  - unfold pages. rewrite length_visited. reflexivity.
  - unfold request_calls. rewrite Hland.
    rewrite count_if_cons, count_if_app, click_failures_of_a_load,
      count_if_app, click_failures_of_a_page, count_if_cons, count_if_app,
      Hfail.
    reflexivity.
Qed.

Lemma failed_click_ends_pagination_witness :
  let out :=
    scrape_tweets (scraper_up stuck_on_second) (lit "weather") 2 fresh in
  (exists a b, fst out = inr [a; b])
  /\ exists calls,
      trace (snd out) = calls
      /\ count_if is_click calls = 2
      /\ count_if is_sleep calls = 1
      /\ extractions calls = 2
      /\ count_if is_click_failure calls = 1.
Proof.
  destruct (failed_click_ends_pagination (scraper_up stuck_on_second)
              (lit "weather") 2 fresh stuck_on_second
              (boom WebDriverException "element not interactable")
              eq_refl) as (Hres & calls & before & Htr & _ & Hc & Hs & Hx & Hf).
  - vm_compute. lia.
  - reflexivity.
  - reflexivity.
  - split.
    + do 2 eexists. rewrite Hres. vm_compute. reflexivity.
    + exists calls. cbn [fresh trace app] in Htr.
      assert (Hk : List.length (visited (Z.to_nat 2) stuck_on_second) = 2)
        by reflexivity.
      rewrite Hk in Hc, Hs, Hx.
      repeat split; try assumption. lia.
Defined.

(** X7.  A request returns at most one record per post element of the
    pages it visited. *)
Theorem results_are_bounded_by_the_posts_on_the_pages
        (self : TwitterSentimentScraper) (query : str) (num_pages : Z)
        (s : state) :
  exists results,
    fst (scrape_tweets self query num_pages s) = inr results
    /\ List.length results
       <= match landing self (driver_quit s) query with
          | Some p =>
              List.length (flat_map items (visited (Z.to_nat num_pages) p))
          | None => 0
          end.
Proof.
  eexists. split; [apply scrape_tweets_result |].
  destruct (landing self (driver_quit s) query) as [p |]; [| cbn; lia].
  unfold page_then_dom.
  induction (visited (Z.to_nat num_pages) p) as [| pg pages IH];
    [cbn; lia |].
  cbn [flat_map]. rewrite !length_app.
  assert (Hpage : List.length (flat_map (posts_of self (executor_shutdown s))
                                        (items pg))
                  <= List.length (items pg)).
  { induction (items pg) as [| t l IHl]; [cbn; lia |].
    cbn [flat_map List.length]. rewrite length_app.
    assert (List.length (posts_of self (executor_shutdown s) t) <= 1).
    { rewrite posts_of_eq.
      destruct (read_tweet t) as [e | raw]; cbn; [lia |].
      destruct (executor_shutdown s); cbn; [lia |].
      destruct (analyze_sentiment_async self _) as [e | [l0 sc]]; cbn; lia. }
    lia. }
  lia.
Qed.

(** *** One page, one post *)

(** X8.  [extract_tweets] never raises.  When the lookup of the post
    elements raises, the page adds no record and one ERROR record is
    logged; when the page has no post element, a WARNING is logged;
    otherwise every element is processed in turn. *)
Theorem a_page_that_cannot_be_read_adds_nothing
        (self : TwitterSentimentScraper) (s : state) :
  match timeline_items (current_page s) with
  | inl e =>
      extract_tweets self s
      = (inr tt,
         set_trace s
           (trace s ++ [FindTimelineItems;
                        Log ERROR (lit "Error while extracting tweets: "
                                       ++ exn_str e)]))
  | inr [] =>
      extract_tweets self s
      = (inr tt,
         set_trace s
           (trace s ++ [FindTimelineItems;
                        Log WARNING (lit "No tweets found on the page.")]))
  | inr tweets =>
      fst (extract_tweets self s) = inr tt
      /\ tweet_data (snd (extract_tweets self s))
         = tweet_data s
             ++ flat_map (posts_of self (executor_shutdown s)) tweets
  end.
Proof.
  rewrite extract_tweets_eq. unfold items, page_calls.
  destruct s as [p dq down td tr]. cbn.
  destruct (timeline_items p) as [e | [| t l]]; cbn.
  - unfold set_trace; cbn. now rewrite app_nil_r.
  - unfold set_trace; cbn. now rewrite app_nil_r.
  - split; reflexivity.
Qed.

(** X9.  The two nullable fields of a post that was read.  Its link is
    null exactly when the "tweet-link" element has no "href" attribute;
    its avatar is null exactly when the avatar has no "src" attribute or
    the lookup of lines 109-112 raised [NoSuchElementException]. *)
Theorem null_fields_of_a_post (tweet : web_element) (raw : raw_post) :
  read_tweet tweet = inr raw ->
  (tweet_link raw = None
   <-> exists el, find_element tweet "tweet-link" = inr el
                  /\ get_attribute el "href" = inr None)
  /\ (image_url raw = None
      <-> attribute tweet "avatar.round" "src" = inr None
          \/ exists e, attribute tweet "avatar.round" "src" = inl e
                       /\ isinstance e NoSuchElementException = true).
Proof.
  intros Hread. apply read_tweet_inr in Hread.
  destruct Hread as (stats & _ & _ & Hlink & _ & _ & _ & _ & Hav).
  split.
  - unfold attribute in Hlink.
    destruct (find_element tweet "tweet-link") as [e | el];
      [discriminate |].
    cbn in Hlink. split.
    + intros Hnone. exists el. split; [reflexivity |]. now rewrite <- Hnone.
    + intros (el' & [= <-] & Hattr). rewrite Hattr in Hlink.
      now injection Hlink.
  - unfold avatar, except in Hav.
    destruct (attribute tweet "avatar.round" "src") as [e | o].
    + destruct (isinstance e NoSuchElementException) eqn:Hcls;
        [| discriminate].
      injection Hav as <-. split; [| reflexivity].
      intros _. right. now exists e.
    + injection Hav as <-. split.
      * intros ->. now left.
      * intros [[= ->] | (e & He & _)]; [reflexivity | discriminate].
Qed.

Lemma null_fields_of_a_post_witness :
  exists raw,
    read_tweet (post "/a/1" (lit "one") [] false) = inr raw
    /\ image_url raw = None
    /\ tweet_link raw = Some (lit "/a/1").
Proof.
  eexists. split; [reflexivity |].
  pose proof (null_fields_of_a_post (post "/a/1" (lit "one") [] false) _
                eq_refl) as [_ [_ H]].
  split; [| reflexivity].
  apply H. right. eexists. split; reflexivity.
Defined.

(** X10.  Only a missing avatar is forgiven: when the avatar lookup
    raises any other exception, the post is dropped like a post without
    a required field. *)
Theorem other_avatar_errors_drop_the_post
        (self : TwitterSentimentScraper) (down : bool)
        (tweet : web_element) (e : exn) :
  attribute tweet "avatar.round" "src" = inl e ->
  isinstance e NoSuchElementException = false ->
  (exists e', read_tweet tweet = inl e')
  /\ posts_of self down tweet = [].
Proof.
  intros Hav Hcls.
  assert (H : exists e', read_tweet tweet = inl e').
  { destruct (read_tweet tweet) as [e' | raw] eqn:Hread; [now exists e' |].
    apply read_tweet_inr in Hread.
    destruct Hread as (stats & _ & _ & _ & _ & _ & _ & _ & Hraw).
    unfold avatar, except in Hraw. rewrite Hav, Hcls in Hraw.
    discriminate. }
  split; [exact H |].
  destruct H as [e' H]. now rewrite posts_of_eq, H.
Qed.

Lemma other_avatar_errors_drop_the_post_witness :
  let stale := boom WebDriverException "stale element reference" in
  let tweet :=
    {| find_element := fun cls =>
         if String.eqb cls "avatar.round" then inl stale
         else find_element (post "/a/1" (lit "one") [] false) cls;
       find_elements :=
         find_elements (post "/a/1" (lit "one") [] false) |} in
  posts_of (scraper_up blank) false tweet = [].
Proof.
  intros stale tweet.
  apply (other_avatar_errors_drop_the_post (scraper_up blank) false tweet
           stale); reflexivity.
Defined.

(** X11.  The generator of lines 105-107 reads the first four
    "tweet-stat" elements and no other: further elements, readable or
    not, change nothing. *)
Theorem only_four_stats_are_read (stats : list sub_element) :
  unpack_stats stats = unpack_stats (firstn 4 stats).
Proof.
  destruct stats as [| a [| b [| c [| d rest]]]]; reflexivity.
Qed.

(** *** [strip] *)

Lemma lstrip_split (s : str) :
  exists pre, s = pre ++ lstrip s /\ forallb isspace pre = true.
Proof.
  induction s as [| c s IH].
  - now exists [].
  - cbn [lstrip]. destruct (isspace c) eqn:Hc.
    + destruct IH as (pre & Heq & Hpre). exists (c :: pre). split.
      * cbn. now rewrite <- Heq.
      * cbn. now rewrite Hc.
    + now exists [].
Qed.

Lemma lstrip_head (s : str) :
  match lstrip s with
  | c :: _ => isspace c = false
  | [] => True
  end.
Proof.
  induction s as [| c s IH]; [exact I |].
  cbn [lstrip]. destruct (isspace c) eqn:Hc; [exact IH | exact Hc].
Qed.

Lemma lstrip_fixed (s : str) :
  match s with
  | c :: _ => isspace c = false
  | [] => True
  end ->
  lstrip s = s.
Proof. destruct s as [| c s]; [reflexivity |]. cbn. now intros ->. Qed.

Lemma strip_trimmed (s : str) : trimmed (strip s) = true.
Proof.
  unfold strip, rstrip.
  pose proof (lstrip_head s) as Hhead.
  set (u := lstrip s) in *.
  destruct (lstrip_split (rev u)) as (pre & Heq & _).
  pose proof (lstrip_head (rev u)) as Hlast.
  set (w := lstrip (rev u)) in *.
  assert (Hu : u = rev w ++ rev pre)
    by (rewrite <- rev_app_distr, <- Heq; symmetry; apply rev_involutive).
  destruct w as [| c w]; [reflexivity |].
  cbn [rev] in *. unfold trimmed.
  destruct (rev w ++ [c]) as [| h r] eqn:Hr; [reflexivity |].
  assert (Hh : isspace h = false).
  { rewrite Hu in Hhead. cbn in Hhead. exact Hhead. }
  rewrite Hh. rewrite <- Hr, last_last, Hlast. reflexivity.
Qed.

Lemma strip_fixed (s : str) : trimmed s = true -> strip s = s.
Proof.
  unfold trimmed, strip, rstrip. destruct s as [| c s]; [reflexivity |].
  intros H. apply andb_prop in H. destruct H as [Hc Hl].
  apply negb_true_iff in Hc, Hl.
  rewrite (lstrip_fixed (c :: s)) by exact Hc.
  assert (Hrev : exists x r, rev (c :: s) = x :: r /\ isspace x = false).
  { destruct (@exists_last _ (c :: s)) as (r & x & Heq); [discriminate |].
    rewrite Heq in Hl. rewrite last_last in Hl.
    exists x, (rev r). rewrite Heq, rev_app_distr. now split. }
  destruct Hrev as (x & r & Heq & Hx).
  rewrite Heq, (lstrip_fixed (x :: r)) by exact Hx.
  rewrite <- Heq. apply rev_involutive.
Qed.

(** X12.  [strip] leaves no white space at either end, and leaves a
    string without such white space as it is; so the user name, the
    display name, the date, the body and the four counts of a post that
    was read carry none, and stripping them again changes nothing. *)
Theorem text_fields_are_trimmed (tweet : web_element) (raw : raw_post) :
  read_tweet tweet = inr raw ->
  Forall (fun field => trimmed field = true /\ strip field = field)
         [username raw; full_name raw; tweet_date raw; tweet_content raw;
          comments raw; retweets raw; quotes raw; likes raw].
Proof.
  intros Hread. apply read_tweet_inr in Hread.
  destruct Hread as (stats & _ & Hu & _ & Huser & Hname & Hdate & Hbody & _).
  assert (Hstripped : forall cls v,
             stripped_text tweet cls = inr v -> trimmed v = true).
  { intros cls v H. unfold stripped_text in H.
    destruct (find_element tweet cls) as [e | el]; [discriminate |].
    cbn in H. destruct (text el) as [e | t]; [discriminate |].
    injection H as <-. apply strip_trimmed. }
  assert (Hstat : forall i v, stat_at stats i = inr v -> trimmed v = true).
  { intros i v H. unfold stat_at in H.
    destruct (nth_error stats i) as [el |].
    - destruct (text el) as [e | t]; [discriminate |].
      injection H as <-. apply strip_trimmed.
    - injection H as <-. reflexivity. }
  unfold unpack_stats in Hu.
  destruct (stat_at stats 0) as [e | c] eqn:H0; [discriminate |].
  destruct (stat_at stats 1) as [e | r] eqn:H1; [discriminate |].
  destruct (stat_at stats 2) as [e | q] eqn:H2; [discriminate |].
  destruct (stat_at stats 3) as [e | l] eqn:H3; [discriminate |].
  cbn in Hu. injection Hu as <- <- <- <-.
  assert (Hboth : forall v, trimmed v = true ->
                            trimmed v = true /\ strip v = v)
    by (intros v H; split; [exact H | now apply strip_fixed]).
  repeat constructor; apply Hboth; eauto.
Qed.

Lemma text_fields_are_trimmed_witness :
  exists raw,
    read_tweet (post "/a/1" (lit "  one ") [" 7 "%string] true) = inr raw
    /\ full_name raw = lit "Ada L."
    /\ trimmed (full_name raw) = true.
Proof.
  eexists. split; [reflexivity |].
  pose proof (text_fields_are_trimmed
                (post "/a/1" (lit "  one ") [" 7 "%string] true) _ eq_refl)
    as H.
  apply Forall_inv_tail, Forall_inv in H. destruct H as [H _].
  split; [reflexivity | exact H].
Defined.

(** *** Calls to the two backends *)

Section EnrichmentEvents.

(** [f] singles out calls to the translator or to the classifier. *)
Variable f : event -> bool.
Hypothesis f_log : forall lvl msg, f (Log lvl msg) = false.
Hypothesis f_browser : forall ev, is_browser ev = true -> f ev = false.

Lemma enrichment_break_calls (e : exn) : count_if f (break_calls e) = 0.
Proof.
  unfold break_calls, count_if.
  destruct (isinstance e NoSuchElementException); cbn; now rewrite f_log.
Qed.

Lemma enrichment_load_failure_calls (url : str) (e : exn) :
  count_if f (load_failure_calls url e) = 0.
Proof.
  unfold load_failure_calls, count_if.
  destruct (isinstance e TimeoutException);
    [| destruct (isinstance e WebDriverException)];
    cbn; now rewrite f_log.
Qed.

Lemma enrichment_load_calls (self : TwitterSentimentScraper) (gone : bool)
      (url : str) :
  count_if f (load_calls self gone url) = 0.
Proof.
  unfold load_calls. rewrite !count_if_cons, f_log.
  rewrite (f_browser (Get url)) by reflexivity.
  destruct gone; [now rewrite enrichment_load_failure_calls |].
  destruct (serve self url) as [e | p];
    [now rewrite enrichment_load_failure_calls |].
  rewrite count_if_cons, (f_browser WaitTimeline) by reflexivity.
  destruct (wait_timeline p); [now rewrite enrichment_load_failure_calls |].
  rewrite count_if_cons, f_log. reflexivity.
Qed.

Lemma enrichment_page_calls (self : TwitterSentimentScraper) (down : bool)
      (p : page) :
  count_if f (page_calls self down p)
  = count_if f (flat_map (calls_of self down) (items p)).
Proof.
  unfold page_calls, items.
  rewrite count_if_cons, (f_browser FindTimelineItems) by reflexivity.
  destruct (timeline_items p) as [e | [| t l]]; try reflexivity;
    rewrite count_if_cons, f_log; reflexivity.
Qed.

Lemma count_if_flat_map_app (self : TwitterSentimentScraper) (down : bool)
      (l1 l2 : list web_element) :
  count_if f (flat_map (calls_of self down) (l1 ++ l2))
  = count_if f (flat_map (calls_of self down) l1)
    + count_if f (flat_map (calls_of self down) l2).
Proof. now rewrite flat_map_app, count_if_app. Qed.

Lemma enrichment_pagination_calls (self : TwitterSentimentScraper)
      (down : bool) (n : nat) (p : page) :
  count_if f (pagination_calls self down n p)
  = count_if f (flat_map (calls_of self down)
                         (flat_map items (tl (visited n p)))).
Proof.
  revert p. induction n as [| n IH]; intros p; [reflexivity |].
  cbn [pagination_calls visited tl].
  rewrite count_if_cons, (f_browser FindShowMore) by reflexivity.
  destruct (show_more p) as [e | [e | next]].
  - now rewrite enrichment_break_calls.
  - rewrite count_if_cons, (f_browser Click) by reflexivity.
    now rewrite enrichment_break_calls.
  - rewrite !count_if_cons, (f_browser Click), (f_browser (Sleep 2))
      by reflexivity.
    rewrite count_if_app, enrichment_page_calls, IH.
    rewrite (visited_head n next) at 2. cbn [flat_map].
    now rewrite count_if_flat_map_app.
Qed.

Lemma enrichment_request_calls (self : TwitterSentimentScraper)
      (gone down : bool) (query : str) (num_pages : Z) :
  count_if f (request_calls self gone down query num_pages)
  = count_if f (flat_map (calls_of self down)
                         (visited_items self gone query num_pages)).
Proof.
  unfold request_calls, visited_items.
  rewrite count_if_cons, f_log, count_if_app, enrichment_load_calls.
  destruct (landing self gone query) as [p |]; [| reflexivity].
  rewrite count_if_app, enrichment_page_calls, count_if_cons, f_log,
    count_if_app, enrichment_pagination_calls, count_if_cons, f_log.
  rewrite (visited_head (Z.to_nat num_pages) p) at 2. cbn [flat_map].
  rewrite count_if_flat_map_app. cbn. lia.
Qed.

Lemma count_if_flat_map_calls (self : TwitterSentimentScraper) (down : bool)
      (pred : web_element -> bool) (l : list web_element) :
  (forall t, count_if f (calls_of self down t) = if pred t then 1 else 0) ->
  count_if f (flat_map (calls_of self down) l) = List.length (filter pred l).
Proof.
  intros H. induction l as [| t l IH]; [reflexivity |].
  cbn [flat_map filter]. rewrite count_if_app, H, IH.
  now destruct (pred t).
Qed.

End EnrichmentEvents.

Lemma submits_of_a_post (self : TwitterSentimentScraper) (t : web_element) :
  count_if is_submit (calls_of self false t) = if readable t then 1 else 0.
Proof.
  rewrite calls_of_eq. unfold readable, skipped.
  destruct (read_tweet t) as [e | raw]; [reflexivity |].
  cbn zeta. rewrite count_if_app, count_if_cons. cbn [is_submit].
  assert (Htr : count_if is_submit
                         (translation_calls self (tweet_content raw)) = 0).
  { unfold translation_calls.
    destruct (isascii (tweet_content raw)); [reflexivity |].
    destruct (translator self (tweet_content raw)); reflexivity. }
  rewrite Htr.
  destruct (analyze_sentiment_async self _); reflexivity.
Qed.

Lemma submits_when_shut_down (self : TwitterSentimentScraper)
      (t : web_element) :
  count_if is_submit (calls_of self true t) = if false then 1 else 0.
Proof.
  rewrite calls_of_eq. unfold skipped.
  destruct (read_tweet t) as [e | raw]; [reflexivity |].
  cbn zeta. rewrite count_if_app.
  unfold translation_calls.
  destruct (isascii (tweet_content raw)); [reflexivity |].
  destruct (translator self (tweet_content raw)); reflexivity.
Qed.

Lemma translations_of_a_post (self : TwitterSentimentScraper) (down : bool)
      (t : web_element) :
  count_if is_translate (calls_of self down t)
  = if needs_translation t then 1 else 0.
Proof.
  rewrite calls_of_eq. unfold needs_translation, skipped.
  destruct (read_tweet t) as [e | raw]; [reflexivity |].
  cbn zeta. rewrite count_if_app. unfold translation_calls.
  assert (Hrest :
            count_if is_translate
              (if down
               then [Log ERROR
                         (lit "Error extracting tweet: "
                              ++ exn_str
                                   (mkExn RuntimeError
                                      (lit "cannot schedule new futures after shutdown")
                                      []))]
               else Submit (normalized self (tweet_content raw))
                    :: match analyze_sentiment_async self
                               (normalized self (tweet_content raw)) with
                       | inl e =>
                           [Log ERROR (lit "Error extracting tweet: "
                                           ++ exn_str e)]
                       | inr _ => []
                       end) = 0).
  { destruct down; [reflexivity |].
    destruct (analyze_sentiment_async self _); reflexivity. }
  rewrite Hrest.
  destruct (isascii (tweet_content raw)); [reflexivity |].
  destruct (translator self (tweet_content raw)); reflexivity.
Qed.

(** X13.  A request calls the classifier once for every post element
    of the visited pages whose fields could be read, and for no other
    (not at all once the executor is shut down); it calls the translator
    once for every such post whose body is not ASCII, and for no other. *)
Theorem one_backend_call_per_readable_post
        (self : TwitterSentimentScraper) (query : str) (num_pages : Z)
        (s : state) :
  exists calls,
    trace (snd (scrape_tweets self query num_pages s)) = trace s ++ calls
    /\ count_if is_submit calls
       = (if executor_shutdown s then 0
          else List.length
                 (filter readable
                    (visited_items self (driver_quit s) query num_pages)))
    /\ count_if is_translate calls
       = List.length
           (filter needs_translation
              (visited_items self (driver_quit s) query num_pages)).
Proof.
  eexists. split; [apply scrape_tweets_trace |].
  rewrite !enrichment_request_calls by (try reflexivity; now intros []).
  split.
  - destruct (executor_shutdown s).
    + rewrite (count_if_flat_map_calls is_submit self true (fun _ => false))
        by apply submits_when_shut_down.
      induction (visited_items self (driver_quit s) query num_pages);
        [reflexivity | assumption].
    + apply count_if_flat_map_calls, submits_of_a_post.
  - apply count_if_flat_map_calls, translations_of_a_post.
Qed.

(** X14.  When the body of a post is not ASCII and the translator
    answers, the classifier is given the translation, and the record
    keeps the body under "tweet_content" and the translation under
    "trans_content"; the post costs one call to each backend. *)
Theorem a_translation_is_what_gets_classified
        (self : TwitterSentimentScraper) (tweet : web_element)
        (raw : raw_post) (translation sentiment : str) (score : Q) :
  read_tweet tweet = inr raw ->
  isascii (tweet_content raw) = false ->
  translator self (tweet_content raw) = inr translation ->
  analyze_sentiment_async self translation = inr (sentiment, score) ->
  posts_of self false tweet = [record raw translation sentiment score]
  /\ calls_of self false tweet
     = [Translate (tweet_content raw); Submit translation]
  /\ Py.get (record raw translation sentiment score) "tweet_content"
     = Some (Str (tweet_content raw))
  /\ Py.get (record raw translation sentiment score) "trans_content"
     = Some (Str translation).
Proof.
  intros Hread Hascii Htr Hcls.
  assert (Hnorm : normalized self (tweet_content raw) = translation)
    by (unfold normalized; now rewrite Hascii, Htr).
  rewrite posts_of_eq, calls_of_eq, Hread. cbn zeta.
  rewrite Hnorm, Hcls. unfold translation_calls. rewrite Hascii, Htr.
  repeat split; reflexivity.
Qed.

Lemma a_translation_is_what_gets_classified_witness :
  exists d,
    posts_of (scraper_up blank) false (post "/a/9" cafe [] true) = [d]
    /\ Py.get d "trans_content" = Some (Str (lit "coffee"))
    /\ Py.get d "tweet_content" = Some (Str cafe).
Proof.
  destruct (a_translation_is_what_gets_classified (scraper_up blank)
              (post "/a/9" cafe [] true)
              {| tweet_link := Some (lit "/a/9"); username := lit "@ada";
                 full_name := lit "Ada L."; tweet_date := lit "Nov 4";
                 tweet_content := cafe;
                 comments := lit "0"; retweets := lit "0"; quotes := lit "0";
                 likes := lit "0"; image_url := Some (lit "/pic/ada.jpg") |}
              (lit "coffee") (lit "positive") (9 # 10)%Q
              eq_refl eq_refl eq_refl eq_refl) as (H & _ & Hc & Ht).
  eexists. split; [exact H |]. split; [exact Ht | exact Hc].
Defined.

(** X15.  Of the list the pipeline answers, line 58 uses the first
    element and nothing else; when the list is empty the [IndexError]
    of the subscript skips the post like any classifier failure. *)
Theorem only_the_first_classification_is_used
        (self : TwitterSentimentScraper) (tweet : web_element)
        (raw : raw_post) :
  read_tweet tweet = inr raw ->
  let text := normalized self (tweet_content raw) in
  match sentiment_pipe self text with
  | inr ((sentiment, score) :: _) =>
      posts_of self false tweet = [record raw text sentiment score]
  | inr [] =>
      posts_of self false tweet = []
      /\ In (Log ERROR
                 (lit "Error extracting tweet: "
                      ++ lit "list index out of range"))
            (calls_of self false tweet)
  | inl e =>
      posts_of self false tweet = []
      /\ In (Log ERROR (lit "Error extracting tweet: " ++ exn_str e))
            (calls_of self false tweet)
  end.
Proof.
  intros Hread. cbn zeta.
  rewrite posts_of_eq, calls_of_eq, Hread. cbn zeta.
  unfold analyze_sentiment_async, skipped.
  destruct (sentiment_pipe self (normalized self (tweet_content raw)))
    as [e | [| [sentiment score] rest]].
  - split; [reflexivity |]. apply in_or_app. right. right. now left.
  - split; [reflexivity |]. apply in_or_app. right. right. now left.
  - reflexivity.
Qed.

Lemma only_the_first_classification_is_used_witness :
  let silent :=
    {| serve := site blank;
       translator := fun _ => inr (lit "coffee");
       sentiment_pipe := fun _ => inr [] |} in
  posts_of silent false (post "/a/1" (lit "one") [] true) = [].
Proof.
  intros silent.
  pose proof (only_the_first_classification_is_used silent
                (post "/a/1" (lit "one") [] true) _ eq_refl) as H.
  cbn zeta in H. exact (proj1 H).
Defined.

(** ** Properties of the life cycle *)

Lemma init_without_browser (os : platform) (s : state) (e : exn) :
  firefox os (geckodriver_path os) [lit "--headless"] = inl e ->
  init os true default_sentiment_model s
  = (inl e,
     set_trace s
       (trace s
          ++ if isinstance e WebDriverException
             then [Log ERROR (lit "Error initializing WebDriver: "
                                  ++ exn_str e)]
             else [])).
Proof.
  intros H.
  unfold init, try_except. cbn zeta. unfold bind at 1. unfold lift at 1.
  rewrite H.
  destruct (isinstance e WebDriverException).
  - reflexivity.
  - destruct s; unfold raise, set_trace; cbn. now rewrite app_nil_r.
Qed.

(** X16.  The scraper is built at most once.  Once [get_scraper] has
    returned one, every later call returns the same one and leaves the
    process as it is, whatever the platform would now answer; and the
    scraper the start-up hook builds is the one requests get. *)
Theorem the_scraper_is_built_once
        (os : platform) (pr pr' : process) (sc : TwitterSentimentScraper) :
  get_scraper os pr = (inr sc, pr') ->
  scraper pr' = Some sc
  /\ (forall os', get_scraper os' pr' = (inr sc, pr'))
  /\ (forall os', exists pr'',
         lifespan_startup os' pr' = (inr tt, pr'')
         /\ scraper pr'' = Some sc).
Proof.
  unfold get_scraper, create_if_missing. intros H.
  assert (Hsome : scraper pr' = Some sc).
  { destruct (scraper pr) as [sc0 |] eqn:Hs.
    - injection H as <- <-. exact Hs.
    - destruct (init os true default_sentiment_model (session pr))
        as [[e | sc0] s']; [discriminate |].
      injection H as <- <-. reflexivity. }
  split; [exact Hsome |]. split.
  - intros os'. now rewrite Hsome.
  - intros os'. unfold lifespan_startup, in_session, create_if_missing.
    rewrite logger_info. cbn. rewrite Hsome. eexists. split; reflexivity.
Qed.

Lemma the_scraper_is_built_once_witness :
  exists sc pr',
    get_scraper laptop idle = (inr sc, pr')
    /\ get_scraper no_driver pr' = (inr sc, pr').
Proof.
  eexists. eexists. split; [reflexivity |].
  eapply (the_scraper_is_built_once laptop idle). reflexivity.
Defined.

(** X17.  The browser is started from the path in GECKODRIVER_PATH,
    or from the built-in path when the variable is unset, and headless.
    When it does not start, the exception reaches the caller of
    [get_scraper], is logged as an ERROR only if it is a
    [WebDriverException], and the global stays unset, so that the next
    call tries again. *)
Theorem a_failed_start_is_not_kept
        (os : platform) (pr : process) (e : exn) :
  scraper pr = None ->
  firefox os (geckodriver_path os) [lit "--headless"] = inl e ->
  get_scraper os pr
  = (inl e,
     {| scraper := None;
        session :=
          set_trace (session pr)
            (trace (session pr)
               ++ if isinstance e WebDriverException
                  then [Log ERROR (lit "Error initializing WebDriver: "
                                       ++ exn_str e)]
                  else []) |})
  /\ forall os' sc pr',
      get_scraper os' (snd (get_scraper os pr)) = (inr sc, pr') ->
      exists s', init os' true default_sentiment_model
                      (session (snd (get_scraper os pr))) = (inr sc, s').
Proof.
  intros Hnone Hfail.
  assert (Heq : get_scraper os pr
                = (inl e,
                   {| scraper := None;
                      session :=
                        set_trace (session pr)
                          (trace (session pr)
                             ++ if isinstance e WebDriverException
                                then [Log ERROR
                                          (lit "Error initializing WebDriver: "
                                               ++ exn_str e)]
                                else []) |})).
  { unfold get_scraper, create_if_missing.
    now rewrite Hnone, (init_without_browser os (session pr) e Hfail). }
  split; [exact Heq |].
  intros os' sc pr'. rewrite Heq. cbn [snd].
  unfold get_scraper, create_if_missing. cbn [scraper session].
  destruct (init os' true default_sentiment_model _) as [[e' | sc'] s'];
    [discriminate |].
  intros [= <- _]. now exists s'.
Qed.

Lemma a_failed_start_is_not_kept_witness :
  exists pr',
    get_scraper no_driver idle
    = (inl (boom WebDriverException "geckodriver not found"), pr')
    /\ scraper pr' = None
    /\ trace (session pr')
       = [Log ERROR (lit "Error initializing WebDriver: geckodriver not found")].
Proof.
  destruct (a_failed_start_is_not_kept no_driver idle
              (boom WebDriverException "geckodriver not found")
              eq_refl eq_refl) as [H _].
  eexists. split; [exact H |]. split; reflexivity.
Defined.

(** X18.  When the browser has started and loading the model then
    fails, the exception reaches the caller and the global stays unset,
    but nothing quits the browser that was started. *)
Theorem a_failed_model_load_leaves_the_browser_running
        (os : platform) (pr : process) (browser : str -> result page)
        (e : exn) :
  scraper pr = None ->
  firefox os (geckodriver_path os) [lit "--headless"] = inr browser ->
  pipeline os (lit "text-classification") default_sentiment_model = inl e ->
  let out := get_scraper os pr in
  fst out = inl e
  /\ scraper (snd out) = None
  /\ driver_quit (session (snd out)) = false
  /\ trace (session (snd out))
     = trace (session pr)
         ++ Log INFO (lit "WebDriver initialized successfully.")
         :: if isinstance e WebDriverException
            then [Log ERROR (lit "Error initializing WebDriver: "
                                 ++ exn_str e)]
            else [].
Proof.
  intros Hnone Hstart Hload. cbn zeta.
  unfold get_scraper, create_if_missing. rewrite Hnone.
  unfold init, try_except. cbn zeta. unfold bind at 1. unfold lift at 1.
  rewrite Hstart. unfold bind at 1. unfold new_browser.
  unfold bind at 1. rewrite logger_info.
  unfold bind at 1. unfold lift at 1. rewrite Hload.
  cbn -[isinstance].
  destruct (isinstance e WebDriverException); cbn.
  - repeat split. now rewrite <- app_assoc.
  - repeat split.
Qed.

Lemma a_failed_model_load_leaves_the_browser_running_witness :
  fst (get_scraper no_model idle) = inl (boom Exception "model not found")
  /\ trace (session (snd (get_scraper no_model idle)))
     = [Log INFO (lit "WebDriver initialized successfully.")].
Proof.
  destruct (a_failed_model_load_leaves_the_browser_running no_model idle
              (site three_pages) (boom Exception "model not found")
              eq_refl eq_refl eq_refl) as (H1 & _ & _ & H2).
  split; [exact H1 | exact H2].
Defined.

Lemma close_run (quit shutdown : option exn) (s : state) :
  fst (close quit shutdown s) = inr tt
  /\ (quit = None -> driver_quit (snd (close quit shutdown s)) = true)
  /\ In Quit (trace (snd (close quit shutdown s))).
Proof.
  destruct s as [p dq down td tr].
  destruct quit as [e |]; [| destruct shutdown as [e |]]; cbn;
    unfold set_trace; cbn; repeat split; try discriminate;
    rewrite <- ?app_assoc; apply in_or_app; right; now left.
Qed.

Lemma lifespan_shutdown_run (quit shutdown : option exn) (pr : process)
      (sc : TwitterSentimentScraper) :
  scraper pr = Some sc ->
  lifespan_shutdown quit shutdown pr
  = (inr tt,
     {| scraper := Some sc;
        session :=
          set_trace (snd (close quit shutdown (session pr)))
            (trace (snd (close quit shutdown (session pr)))
               ++ [Log INFO (lit "Shutting down FastAPI application...")]) |}).
Proof.
  intros Hsome. unfold lifespan_shutdown, in_session. rewrite Hsome.
  unfold bind.
  destruct (close_run quit shutdown (session pr)) as (Hok & _).
  destruct (close quit shutdown (session pr)) as [[e | []] s1];
    [discriminate Hok |].
  reflexivity.
Qed.

(** X19.  [close] never raises.  It quits the browser first; when that
    raises, the executor is not shut down at all, and one ERROR record
    is logged; when the shutdown raises, the browser has quit and one
    ERROR record is logged; otherwise both are down and the success is
    logged. *)
Theorem close_never_raises (quit shutdown : option exn) (s : state) :
  let out := close quit shutdown s in
  fst out = inr tt
  /\ match quit, shutdown with
     | Some e, _ =>
         executor_shutdown (snd out) = executor_shutdown s
         /\ driver_quit (snd out) = driver_quit s
         /\ trace (snd out)
            = trace s ++ [Quit;
                          Log ERROR (lit "Error closing WebDriver: "
                                         ++ exn_str e)]
     | None, Some e =>
         executor_shutdown (snd out) = executor_shutdown s
         /\ driver_quit (snd out) = true
         /\ trace (snd out)
            = trace s ++ [Quit; Shutdown;
                          Log ERROR (lit "Error closing WebDriver: "
                                         ++ exn_str e)]
     | None, None =>
         executor_shutdown (snd out) = true
         /\ driver_quit (snd out) = true
         /\ trace (snd out)
            = trace s ++ [Quit; Shutdown;
                          Log INFO
                              (lit "WebDriver and executor closed successfully.")]
     end.
Proof.
  destruct s as [p dq down td tr].
  destruct quit as [e |]; [| destruct shutdown as [e |]]; cbn;
    unfold set_trace; cbn; rewrite <- ?app_assoc; repeat split.
Qed.

Lemma closed_session_answers_nothing (self : TwitterSentimentScraper)
      (query : str) (num_pages : Z) (s : state) :
  driver_quit s = true ->
  fst (scrape_tweets self query num_pages s) = inr [].
Proof. intros H. rewrite scrape_tweets_result, H. reflexivity. Qed.

(** X20.  The shutdown hook closes the scraper but leaves it in the
    global.  A request that comes after it is given the closed scraper,
    no new one is built, and it is answered 200 with no results. *)
Theorem requests_after_shutdown_get_no_results
        (os : platform) (pr : process) (sc : TwitterSentimentScraper)
        (text : str) :
  scraper pr = Some sc ->
  let pr' := snd (lifespan_shutdown None None pr) in
  fst (lifespan_shutdown None None pr) = inr tt
  /\ scraper pr' = Some sc
  /\ fst (get_scraper os pr') = inr sc
  /\ fst (post_analyze os text pr') = inr (OK200 [])
  /\ scraper (snd (post_analyze os text pr')) = Some sc.
Proof.
  intros Hsome. cbn zeta.
  rewrite (lifespan_shutdown_run None None pr sc Hsome). cbn [fst snd scraper].
  destruct (close_run None None (session pr)) as (_ & Hq & _).
  specialize (Hq eq_refl).
  set (s1 := snd (close None None (session pr))) in *.
  split; [reflexivity |]. split; [reflexivity |].
  unfold post_analyze, get_scraper, create_if_missing. cbn [scraper session].
  cbn [fst]. split; [reflexivity |].
  unfold analyze.
  pose proof (closed_session_answers_nothing sc text default_num_pages
                (set_trace s1
                   (trace s1
                      ++ [Log INFO (lit "Shutting down FastAPI application...")]))
                Hq) as Hres.
  destruct (scrape_tweets sc text default_num_pages _) as [[e | l] s2];
    [discriminate Hres |].
  cbn in Hres. injection Hres as ->. split; reflexivity.
Qed.

Lemma requests_after_shutdown_get_no_results_witness :
  let running :=
    {| scraper := Some (scraper_up three_pages); session := fresh |} in
  fst (post_analyze no_driver (lit "weather")
                    (snd (lifespan_shutdown None None running)))
  = inr (OK200 []).
Proof.
  intros running.
  destruct (requests_after_shutdown_get_no_results no_driver running
              (scraper_up three_pages) (lit "weather") eq_refl)
    as (_ & _ & _ & H & _).
  exact H.
Defined.

(** X21.  The shutdown hook never raises, whatever [quit] and
    [shutdown] do; when no scraper was ever built it closes nothing and
    only logs. *)
Theorem shutdown_is_safe (quit shutdown : option exn) (pr : process) :
  fst (lifespan_shutdown quit shutdown pr) = inr tt
  /\ scraper (snd (lifespan_shutdown quit shutdown pr)) = scraper pr
  /\ match scraper pr with
     | None =>
         session (snd (lifespan_shutdown quit shutdown pr))
         = set_trace (session pr)
             (trace (session pr)
                ++ [Log INFO (lit "Shutting down FastAPI application...")])
     | Some _ =>
         In Quit (trace (session (snd (lifespan_shutdown quit shutdown pr))))
     end.
Proof.
  destruct (scraper pr) as [sc |] eqn:Hs.
  - rewrite (lifespan_shutdown_run quit shutdown pr sc Hs).
    cbn [fst snd scraper session set_trace trace].
    repeat split.
    apply in_or_app. left. apply close_run.
  - unfold lifespan_shutdown, in_session. rewrite Hs. cbn. repeat split.
Qed.

(** X22.  Once a scraper exists, a [POST /analyze] is answered 200
    with the results of a request for the text and the default budget of
    two pages: no exception reaches the framework, the platform is not
    asked for anything, and the scraper stays in place. *)
Theorem the_endpoint_answers_200
        (os : platform) (pr : process) (sc : TwitterSentimentScraper)
        (text : str) :
  scraper pr = Some sc ->
  exists results,
    fst (scrape_tweets sc text 2 (session pr)) = inr results
    /\ post_analyze os text pr
       = (inr (OK200 results),
          {| scraper := Some sc;
             session := snd (scrape_tweets sc text 2 (session pr)) |}).
Proof.
  intros Hsome.
  unfold post_analyze, get_scraper, create_if_missing, analyze,
    default_num_pages.
  rewrite Hsome.
  pose proof (scrape_tweets_result sc text 2 (session pr)) as H.
  destruct (scrape_tweets sc text 2 (session pr)) as [[e | l] s'];
    [discriminate H |].
  exists l. rewrite Hsome. split; reflexivity.
Qed.

Lemma the_endpoint_answers_200_witness :
  let running :=
    {| scraper := Some (scraper_up cafe_page); session := fresh |} in
  exists d pr',
    post_analyze no_driver (lit "cafe") running = (inr (OK200 [d]), pr').
Proof.
  intros running.
  destruct (the_endpoint_answers_200 no_driver running (scraper_up cafe_page)
              (lit "cafe") eq_refl) as (results & Hres & Heq).
  vm_compute in Hres. injection Hres as <-.
  eexists. eexists. exact Heq.
Defined.
